(** * stattrap: the online statistics engine of [trunk/stattrap/stats.py]

    A shallow embedding of the counter classes ([Counter],
    [MinMaxAvgCounter], [StdDevCounter], [MicrosecondCounter]) and of the
    registry [ElapsedTimeStats], followed by the properties of the
    specification that were checked against them.

    The module is Python 2 code ([unicode], [xrange], [keys.sort()], no
    [from __future__ import division]): [/] between two [int]s is floor
    division, a [float] operand makes the operation a [float] one after
    the other operand was converted, and values of different types are
    ordered by the interpreter's default ordering.  An [int] is unbounded;
    a [float] is an IEEE 754 binary64 number, with its rounding, its
    infinities and its nan; converting an [int] that is too large for a
    [float] raises [OverflowError]. *)

From Stdlib Require Import ZArith Reals Lra Lia List.
From Stdlib Require Import Strings.String Strings.Ascii.
From Stdlib Require Import Numbers.DecimalString.
From Stdlib Require Import Floats.SpecFloat.
From stdpp Require Import gmap strings sorting.

Local Open Scope string_scope.
Local Open Scope Z_scope.

(** ** Python values *)

(** A [float]: binary64, that is 53 bits of precision and exponents below
    1024. *)
Definition float : Type := spec_float.

Definition float_add : float -> float -> float := SFadd 53 1024.
Definition float_sub : float -> float -> float := SFsub 53 1024.
Definition float_mul : float -> float -> float := SFmul 53 1024.
Definition float_div : float -> float -> float := SFdiv 53 1024.
Definition float_sqrt : float -> float := SFsqrt 53 1024.

(** The float nearest to an integer (ties to even); an infinity when the
    integer is out of range. *)
Definition float_of_Z (z : Z) : float := binary_normalize 53 1024 z 0 false.

(** A float literal without a fractional part, such as [1000000.0], is
    written as its integer. *)
Coercion float_of_Z : Z >-> float.

(** Numbers: [int] (unbounded) and [float]. *)
Inductive num : Type :=
| PyInt (z : Z)
| PyFloat (f : float).

(** The values a sample can be in this model: a number, a string or
    [None]. *)
Inductive pyval : Type :=
| PNum (n : num)
| PStr (s : string)
| PNone.

Coercion PNum : num >-> pyval.

(** Exceptions raised by the modelled code. *)
Inductive exn : Type :=
| TypeError
| ZeroDivisionError
| ValueError
| AttributeError
| OverflowError.

Inductive result (A : Type) : Type :=
| Ok (a : A)
| Raise (e : exn).

Arguments Ok {A} a.
Arguments Raise {A} e.

(** The largest magnitude an [int] can have and still be converted: the
    integers from [2^1024 - 2^970] on round to [2^1024], which is not a
    binary64 number. *)
Definition float_limit : Z := 2 ^ 1024 - 2 ^ 970.

(** [float(z)] as the interpreter does it when an [int] meets a [float]:
    [OverflowError] when the [int] is too large. *)
Definition float_of_int (z : Z) : result float :=
  if Z.abs z <? float_limit then Ok (float_of_Z z) else Raise OverflowError.

Definition as_float (n : num) : result float :=
  match n with
  | PyInt z => float_of_int z
  | PyFloat f => Ok f
  end.

(** A [float] operation on two numbers: both are converted, the left one
    first, then the operation is done; it overflows to an infinity
    silently. *)
Definition float_op (op : float -> float -> float) (a b : num) : result num :=
  match as_float a with
  | Raise e => Raise e
  | Ok x =>
      match as_float b with
      | Raise e => Raise e
      | Ok y => Ok (PyFloat (op x y))
      end
  end.

(** [a - b], [a + b], [a * b] on numbers: exact on two [int]s, a [float]
    operation otherwise. *)
Definition num_sub (a b : num) : result num :=
  match a, b with
  | PyInt x, PyInt y => Ok (PyInt (x - y))
  | _, _ => float_op float_sub a b
  end.

Definition num_add (a b : num) : result num :=
  match a, b with
  | PyInt x, PyInt y => Ok (PyInt (x + y))
  | _, _ => float_op float_add a b
  end.

Definition num_mul (a b : num) : result num :=
  match a, b with
  | PyInt x, PyInt y => Ok (PyInt (x * y))
  | _, _ => float_op float_mul a b
  end.

Definition float_is_zero (f : float) : bool :=
  match f with
  | S754_zero _ => true
  | _ => false
  end.

(** [a / b] in Python 2: floor division on two [int]s, true division as
    soon as one operand is a [float]; the operands are converted before
    the divisor is looked at, and a zero divisor raises. *)
Definition num_div (a b : num) : result num :=
  match a, b with
  | PyInt x, PyInt y =>
      if y =? 0 then Raise ZeroDivisionError else Ok (PyInt (x / y))
  | _, _ =>
      match as_float a with
      | Raise e => Raise e
      | Ok x =>
          match as_float b with
          | Raise e => Raise e
          | Ok y =>
              if float_is_zero y then Raise ZeroDivisionError
              else Ok (PyFloat (float_div x y))
          end
      end
  end.

(** An [int] against a [float]: the comparison is exact, nothing is
    converted; there is no order with a nan. *)
Definition Z_float_compare (z : Z) (f : float) : option comparison :=
  match f with
  | S754_nan => None
  | S754_infinity s => Some (if s then Gt else Lt)
  | S754_zero _ => Some (z ?= 0)
  | S754_finite s m e =>
      let fm := if s then Z.neg m else Z.pos m in
      if 0 <=? e then Some (z ?= fm * 2 ^ e)
      else Some (z * 2 ^ (- e) ?= fm)
  end.

Definition num_lt (a b : num) : bool :=
  match a, b with
  | PyInt x, PyInt y => x <? y
  | PyInt x, PyFloat g =>
      match Z_float_compare x g with Some Lt => true | _ => false end
  | PyFloat f, PyInt y =>
      match Z_float_compare y f with Some Gt => true | _ => false end
  | PyFloat f, PyFloat g => SFltb f g
  end.

Definition num_eq (a b : num) : bool :=
  match a, b with
  | PyInt x, PyInt y => x =? y
  | PyInt x, PyFloat g =>
      match Z_float_compare x g with Some Eq => true | _ => false end
  | PyFloat f, PyInt y =>
      match Z_float_compare y f with Some Eq => true | _ => false end
  | PyFloat f, PyFloat g => SFeqb f g
  end.

(** [math.sqrt]: the argument is converted to [float]; a negative one is a
    domain error. *)
Definition math_sqrt (a : num) : result num :=
  match as_float a with
  | Raise e => Raise e
  | Ok x =>
      if SFltb x (S754_zero false) then Raise ValueError
      else Ok (PyFloat (float_sqrt x))
  end.

(** The real number a finite float stands for. *)
Definition float_to_R (f : float) : R :=
  match f with
  | S754_finite s m e =>
      ((if s then -1 else 1) * IZR (Z.pos m) * powerRZ 2 e)%R
  | _ => 0%R
  end.

(** The real number a number stands for. *)
Definition to_float (n : num) : R :=
  match n with
  | PyInt z => IZR z
  | PyFloat f => float_to_R f
  end.

(** [a < b] on arbitrary values, with Python 2's default ordering between
    types: [None] is smaller than everything, a number is smaller than a
    string, strings compare lexicographically. *)
Definition py_lt (a b : pyval) : bool :=
  match a, b with
  | PNum x, PNum y => num_lt x y
  | PNum _, PStr _ => true
  | PNum _, PNone => false
  | PStr x, PStr y => String.ltb x y
  | PStr _, _ => false
  | PNone, PNone => false
  | PNone, _ => true
  end.

Definition py_gt (a b : pyval) : bool := py_lt b a.

(** [a == b]. *)
Definition py_eq (a b : pyval) : bool :=
  match a, b with
  | PNum x, PNum y => num_eq x y
  | PStr x, PStr y => String.eqb x y
  | PNone, PNone => true
  | _, _ => false
  end.

(** [v - n] and [v / n] with a numeric right operand: a string or [None] on
    the left is a [TypeError]. *)
Definition py_sub (v : pyval) (n : num) : result num :=
  match v with
  | PNum x => num_sub x n
  | _ => Raise TypeError
  end.

Definition py_div (v : pyval) (n : num) : result num :=
  match v with
  | PNum x => num_div x n
  | _ => Raise TypeError
  end.

(** ** Time *)

(** A naive [datetime] is a number of microseconds since the start of the
    calendar. *)
Definition datetime : Type := Z.

(** [datetime.timedelta]: days, seconds and microseconds, normalised by the
    constructor so that [0 <= seconds < 86400] and
    [0 <= microseconds < 1000000]. *)
Record timedelta : Type := {
  days : Z;
  seconds : Z;
  microseconds : Z
}.

Definition timedelta_of_us (us : Z) : timedelta :=
  {| days := us / 86400000000;
     seconds := (us / 1000000) mod 86400;
     microseconds := us mod 1000000 |}.

(** [timedelta(days=d, seconds=s, microseconds=us)]. *)
Definition mk_timedelta (d s us : Z) : timedelta :=
  timedelta_of_us ((d * 86400 + s) * 1000000 + us).

(** The whole span of a [timedelta], in microseconds. *)
Definition total_microseconds (td : timedelta) : Z :=
  (days td * 86400 + seconds td) * 1000000 + microseconds td.

(** [a - b] on two [datetime]s. *)
Definition datetime_sub (a b : datetime) : timedelta :=
  timedelta_of_us (a - b).

(** Library functions that only produce text: [datetime.isoformat()],
    [str(timedelta)] and the ["%.*f"] conversion. *)
Class Formatting : Type := {
  isoformat : datetime -> string;
  str_timedelta : timedelta -> string;
  format_f : Z -> float -> string
}.

(** ["%d" % n]. *)
Definition format_d (n : Z) : string := NilZero.string_of_int (Z.to_int n).

(** ["%.*f" % (p, x)]: the number is converted to [float] first. *)
Definition format_float `{Formatting} (p : Z) (x : num) : result string :=
  match as_float x with
  | Raise e => Raise e
  | Ok f => Ok (format_f p f)
  end.

(** ** Counter objects *)

Inductive pyclass : Type :=
| CounterClass
| MinMaxAvgCounterClass
| StdDevCounterClass
| MicrosecondCounterClass.

(** The attributes of an instance, with its class.  A plain [Counter] only
    has [name], [_prefix], [first], [last] and [count]; the others are set
    by the subclasses' constructors.  [max] and [min] hold whatever sample
    was compared into them; [avg], [_mean2] and [stddev] start at 0 and are
    only ever assigned results of arithmetic, which are numbers. *)
Record instance : Type := {
  cls : pyclass;
  name : string;
  _prefix : string;
  first : option datetime;
  last : option datetime;
  count : Z;
  max : pyval;
  min : pyval;
  avg : num;
  _scale : num;
  _precision : Z;
  _mean2 : num;
  stddev : num
}.

Definition set_first (v : option datetime) (o : instance) : instance :=
  {| cls := cls o; name := name o; _prefix := _prefix o; first := v;
     last := last o; count := count o; max := max o; min := min o;
     avg := avg o; _scale := _scale o; _precision := _precision o;
     _mean2 := _mean2 o; stddev := stddev o |}.

Definition set_last (v : option datetime) (o : instance) : instance :=
  {| cls := cls o; name := name o; _prefix := _prefix o; first := first o;
     last := v; count := count o; max := max o; min := min o;
     avg := avg o; _scale := _scale o; _precision := _precision o;
     _mean2 := _mean2 o; stddev := stddev o |}.

Definition set_count (v : Z) (o : instance) : instance :=
  {| cls := cls o; name := name o; _prefix := _prefix o; first := first o;
     last := last o; count := v; max := max o; min := min o;
     avg := avg o; _scale := _scale o; _precision := _precision o;
     _mean2 := _mean2 o; stddev := stddev o |}.

Definition set_max (v : pyval) (o : instance) : instance :=
  {| cls := cls o; name := name o; _prefix := _prefix o; first := first o;
     last := last o; count := count o; max := v; min := min o;
     avg := avg o; _scale := _scale o; _precision := _precision o;
     _mean2 := _mean2 o; stddev := stddev o |}.

Definition set_min (v : pyval) (o : instance) : instance :=
  {| cls := cls o; name := name o; _prefix := _prefix o; first := first o;
     last := last o; count := count o; max := max o; min := v;
     avg := avg o; _scale := _scale o; _precision := _precision o;
     _mean2 := _mean2 o; stddev := stddev o |}.

Definition set_avg (v : num) (o : instance) : instance :=
  {| cls := cls o; name := name o; _prefix := _prefix o; first := first o;
     last := last o; count := count o; max := max o; min := min o;
     avg := v; _scale := _scale o; _precision := _precision o;
     _mean2 := _mean2 o; stddev := stddev o |}.

Definition set_mean2 (v : num) (o : instance) : instance :=
  {| cls := cls o; name := name o; _prefix := _prefix o; first := first o;
     last := last o; count := count o; max := max o; min := min o;
     avg := avg o; _scale := _scale o; _precision := _precision o;
     _mean2 := v; stddev := stddev o |}.

Definition set_stddev (v : num) (o : instance) : instance :=
  {| cls := cls o; name := name o; _prefix := _prefix o; first := first o;
     last := last o; count := count o; max := max o; min := min o;
     avg := avg o; _scale := _scale o; _precision := _precision o;
     _mean2 := _mean2 o; stddev := v |}.

(** ** Methods: a state monad over [self] in which an exception keeps the
    state reached when it was raised *)

Definition M (A : Type) : Type := instance -> result A * instance.

Definition ret {A : Type} (a : A) : M A := fun self => (Ok a, self).

Definition bind {A B : Type} (m : M A) (k : A -> M B) : M B :=
  fun self =>
    match m self with
    | (Ok a, self') => k a self'
    | (Raise e, self') => (Raise e, self')
    end.

Definition lift {A : Type} (r : result A) : M A := fun self => (r, self).

Definition get {A : Type} (f : instance -> A) : M A :=
  fun self => (Ok (f self), self).

Definition modify (f : instance -> instance) : M unit :=
  fun self => (Ok tt, f self).

Definition when (b : bool) (m : M unit) : M unit :=
  fun self => if b then m self else (Ok tt, self).

Declare Scope py_scope.
Delimit Scope py_scope with py.
Notation "x <- m ;; k" := (bind m (fun x => k))
  (at level 100, m at next level, right associativity) : py_scope.
Notation "m ;;; k" := (bind m (fun _ => k))
  (at level 100, right associativity) : py_scope.

Module Counter.

(** [Counter.__init__(self, name)]. *)
Definition init (nm : string) : instance :=
  {| cls := CounterClass;
     name := nm;
     _prefix := nm ++ (if String.eqb nm "" then "" else "_");
     first := None;
     last := None;
     count := 0;
     max := PNone; min := PNone; avg := PyInt 0; _scale := PyInt 1;
     _precision := 0; _mean2 := PyInt 0; stddev := PyInt 0 |}.

(** [Counter.record(self)]; [now] is the clock reading. *)
Definition record (now : datetime) : M unit :=
  (modify (fun self => set_count (count self + 1) self) ;;;
   modify (set_last (Some now)) ;;;
   modify (fun self =>
             match first self with
             | None => set_first (last self) self
             | Some _ => self
             end))%py.

(** [Counter.__repr__(self)]. *)
Definition repr `{Formatting} (self : instance) : result string :=
  match first self with
  | None => Raise AttributeError
  | Some f =>
      match last self with
      | None => Raise AttributeError
      | Some l =>
          Ok (_prefix self ++ "count=" ++ format_d (count self) ++ "&" ++
              _prefix self ++ "first=" ++ isoformat f ++ "&" ++
              _prefix self ++ "last=" ++ isoformat l)
      end
  end.

End Counter.

Module MinMaxAvgCounter.

(** [MinMaxAvgCounter.__init__(self, name, scale, precision)]. *)
Definition init (nm : string) (scale : num) (precision : Z) : instance :=
  let o := Counter.init nm in
  {| cls := MinMaxAvgCounterClass;
     name := name o; _prefix := _prefix o; first := first o;
     last := last o; count := count o;
     max := PyInt 0; min := PyInt 0; avg := PyInt 0;
     _scale := scale; _precision := precision;
     _mean2 := PyInt 0; stddev := PyInt 0 |}.

(** [MinMaxAvgCounter.record(self, value)]. *)
(** [MinMaxAvgCounter.record(self, value)]. *)
Definition record (value : pyval) (now : datetime) : M unit :=
  (Counter.record now ;;;
   modify (fun self =>
             if py_gt value (max self) then set_max value self else self) ;;;
   modify (fun self =>
             if py_lt value (min self) || py_eq (PyInt 0) (min self)
             then set_min value self else self) ;;;
   a <- get avg ;;
   d <- lift (py_sub value a) ;;
   c <- get count ;;
   q <- lift (num_div d (PyInt c)) ;;
   s <- lift (num_add a q) ;;
   modify (set_avg s))%py.

(** [MinMaxAvgCounter.__repr__(self)]: the tuple of arguments is built
    first, from left to right, then the conversions are done in the order
    of the format string. *)
Definition repr `{Formatting} (self : instance) : result string :=
  match Counter.repr self with
  | Raise e => Raise e
  | Ok base =>
  match py_div (min self) (_scale self) with
  | Raise e => Raise e
  | Ok mn =>
  match num_div (avg self) (_scale self) with
  | Raise e => Raise e
  | Ok av =>
  match py_div (max self) (_scale self) with
  | Raise e => Raise e
  | Ok mx =>
  match format_float (_precision self) mn with
  | Raise e => Raise e
  | Ok smn =>
  match format_float (_precision self) av with
  | Raise e => Raise e
  | Ok sav =>
  match format_float (_precision self) mx with
  | Raise e => Raise e
  | Ok smx =>
      Ok (base ++ "&" ++
          _prefix self ++ "min=" ++ smn ++ "&" ++
          _prefix self ++ "avg=" ++ sav ++ "&" ++
          _prefix self ++ "max=" ++ smx)
  end end end end end end end.

End MinMaxAvgCounter.

Module StdDevCounter.

(** [StdDevCounter.__init__(self, name, scale, precision)]. *)
Definition init (nm : string) (scale : num) (precision : Z) : instance :=
  let o := MinMaxAvgCounter.init nm scale precision in
  {| cls := StdDevCounterClass;
     name := name o; _prefix := _prefix o; first := first o;
     last := last o; count := count o;
     max := max o; min := min o; avg := avg o;
     _scale := _scale o; _precision := _precision o;
     _mean2 := PyInt 0; stddev := PyInt 0 |}.


(** [StdDevCounter.record(self, value)]. *)
Definition record (value : pyval) (now : datetime) : M unit :=
  (a0 <- get avg ;;
   delta <- lift (py_sub value a0) ;;
   MinMaxAvgCounter.record value now ;;;
   m2 <- get _mean2 ;;
   a <- get avg ;;
   d <- lift (py_sub value a) ;;
   p <- lift (num_mul delta d) ;;
   s <- lift (num_add m2 p) ;;
   modify (set_mean2 s) ;;;
   c <- get count ;;
   when (2 <? c)
     (m2' <- get _mean2 ;;
      q <- lift (num_div m2' (PyInt c)) ;;
      r <- lift (math_sqrt q) ;;
      modify (set_stddev r)))%py.

(** [StdDevCounter.__repr__(self)]. *)
Definition repr `{Formatting} (self : instance) : result string :=
  match MinMaxAvgCounter.repr self with
  | Raise e => Raise e
  | Ok base =>
  match num_div (stddev self) (_scale self) with
  | Raise e => Raise e
  | Ok sd =>
  match format_float (_precision self) sd with
  | Raise e => Raise e
  | Ok ssd =>
      Ok (base ++ "&" ++ _prefix self ++ "stddev=" ++ ssd)
  end end end.

End StdDevCounter.

Module MicrosecondCounter.

(** [MicrosecondCounter.__init__(self, name, precision)]: the scale is
    the float [1000000.0]. *)
Definition init (nm : string) (precision : Z) : instance :=
  let o := StdDevCounter.init nm (PyFloat 1000000) precision in
  {| cls := MicrosecondCounterClass;
     name := name o; _prefix := _prefix o; first := first o;
     last := last o; count := count o;
     max := max o; min := min o; avg := avg o;
     _scale := _scale o; _precision := _precision o;
     _mean2 := _mean2 o; stddev := stddev o |}.

End MicrosecondCounter.

(** Method resolution: [obj.record(value)] and [unicode(obj)] pick the
    method of the instance's class.  [Counter.record] takes no value, so
    calling it with one is a [TypeError]. *)
Definition call_record (value : pyval) (now : datetime) : M unit :=
  fun self =>
    match cls self with
    | CounterClass => (Raise TypeError, self)
    | MinMaxAvgCounterClass => MinMaxAvgCounter.record value now self
    | StdDevCounterClass | MicrosecondCounterClass =>
        StdDevCounter.record value now self
    end.

Definition call_repr `{Formatting} (self : instance) : result string :=
  match cls self with
  | CounterClass => Counter.repr self
  | MinMaxAvgCounterClass => MinMaxAvgCounter.repr self
  | StdDevCounterClass | MicrosecondCounterClass => StdDevCounter.repr self
  end.

(** Recording a list of samples one after the other, stopping at the
    first exception.  A sample comes with the clock reading of its call. *)
Fixpoint record_all (rec : pyval -> datetime -> M unit)
    (samples : list (pyval * datetime)) : M unit :=
  match samples with
  | [] => ret tt
  | (v, t) :: rest => (rec v t ;;; record_all rec rest)%py
  end.

Module ElapsedTimeStats.

Record t : Type := {
  started : datetime;
  last : option datetime;
  counters : gmap string instance
}.

(** [ElapsedTimeStats.__init__(self)]. *)
Definition init (now : datetime) : t :=
  {| started := now; last := None; counters := ∅ |}.

(** [ElapsedTimeStats.ddict.__missing__(self, key)]: the new counter and
    the dictionary holding it. *)
Definition ddict_missing (key : string) (d : gmap string instance)
    : instance * gmap string instance :=
  let c := MicrosecondCounter.init key 3 in
  (c, <[key := c]> d).

(** [d[key]] on the [ddict]. *)
Definition getitem (key : string) (d : gmap string instance)
    : instance * gmap string instance :=
  match d !! key with
  | Some c => (c, d)
  | None => ddict_missing key d
  end.

(** What [record_delta] accepts as [delta]: a value used as it is, or a
    [timedelta]. *)
Inductive sample : Type :=
| Value (v : pyval)
| Timedelta (td : timedelta).

(** [ElapsedTimeStats.record_delta(self, name, delta)].  [t_record] is
    the clock reading inside the counter's [record], [t_last] the one
    stored in [self.last].  The counter is an object of the dictionary:
    what [record] did to it stays, also when it raised. *)
Definition record_delta (nm : string) (delta : sample)
    (t_record t_last : datetime) (self : t) : result unit * t :=
  let value :=
    match delta with
    | Timedelta td => PNum (PyInt (microseconds td))
    | Value v => v
    end in
  let '(c, d) := getitem nm (counters self) in
  match call_record value t_record c with
  | (Ok _, c') =>
      (Ok tt, {| started := started self; last := Some t_last;
                 counters := <[nm := c']> d |})
  | (Raise e, c') =>
      (Raise e, {| started := started self; last := last self;
                   counters := <[nm := c']> d |})
  end.

(** [ElapsedTimeStats.record_elapsed(self, name, start)]. *)
Definition record_elapsed (nm : string) (start : datetime)
    (t_now t_record t_last : datetime) (self : t) : result unit * t :=
  record_delta nm (Timedelta (datetime_sub t_now start))
    t_record t_last self.

(** The keys of the dictionary, sorted as [keys.sort()] does. *)
Definition sorted_keys (d : gmap string instance) : list string :=
  merge_sort String.le (elements (dom d)).

(** The loop [for k in keys: ret.append(unicode(self.counters[k]))]. *)
Fixpoint append_reprs `{Formatting} (d : gmap string instance)
    (keys : list string) (ret : list string) : result (list string) :=
  match keys with
  | [] => Ok ret
  | k :: ks =>
      let c := match d !! k with
               | Some c => c
               | None => MicrosecondCounter.init k 3
               end in
      match call_repr c with
      | Raise e => Raise e
      | Ok s => append_reprs d ks (ret ++ [s])
      end
  end.

(** [ElapsedTimeStats.__repr__(self)]. *)
Definition repr `{Formatting} (now : datetime) (self : t) : result string :=
  match last self with
  | None => Raise AttributeError
  | Some l =>
      let ret := [ "uptime=" ++ str_timedelta (datetime_sub now (started self));
                   "last=" ++ isoformat l ] in
      match append_reprs (counters self) (sorted_keys (counters self)) ret with
      | Raise e => Raise e
      | Ok ret' => Ok (String.concat "&" ret')
      end
  end.

End ElapsedTimeStats.

(** The calls an external caller can make on the registry. *)
Inductive call : Type :=
| RecordDelta (nm : string) (delta : ElapsedTimeStats.sample)
    (t_record t_last : datetime)
| RecordElapsed (nm : string) (start : datetime)
    (t_now t_record t_last : datetime).

Definition run_call (c : call) (s : ElapsedTimeStats.t) : result unit * ElapsedTimeStats.t :=
  match c with
  | RecordDelta nm delta t1 t2 => ElapsedTimeStats.record_delta nm delta t1 t2 s
  | RecordElapsed nm start t0 t1 t2 =>
      ElapsedTimeStats.record_elapsed nm start t0 t1 t2 s
  end.

(** A caller that goes on after an exception: the state after each call
    is the one the call left. *)
Fixpoint run_calls (cs : list call) (s : ElapsedTimeStats.t) : ElapsedTimeStats.t :=
  match cs with
  | [] => s
  | c :: rest => run_calls rest (snd (run_call c s))
  end.

(** ** Reference notions used by the statements *)

(** The samples of a run, all recorded at clock reading [t]. *)
Definition at_time (t : datetime) (vs : list pyval) : list (pyval * datetime) :=
  map (fun v => (v, t)) vs.

Definition ints (zs : list Z) : list pyval := map (fun z => PNum (PyInt z)) zs.

(** What an object keeps for its whole life: class, name, prefix, scale
    and precision. *)
Definition same_identity (o o' : instance) : Prop :=
  cls o' = cls o /\ name o' = name o /\ _prefix o' = _prefix o /\
  _scale o' = _scale o /\ _precision o' = _precision o.

(** What holds of an entry stored under key [k]. *)
Definition registry_entry_ok (k : string) (c : instance) : Prop :=
  cls c = MicrosecondCounterClass /\ name c = k /\
  _scale c = PyFloat 1000000.

(** A short session on a registry, its last call raising. *)
Definition foo_calls : list call :=
  [ RecordDelta "foo" (ElapsedTimeStats.Value (PyInt 12345)) 10 11;
    RecordDelta "bar" (ElapsedTimeStats.Timedelta (mk_timedelta 0 0 54321)) 20 21;
    RecordDelta "foo" (ElapsedTimeStats.Value (PStr "oops")) 30 31 ].

Definition foo_counter : instance :=
  snd (StdDevCounter.record (PyInt 12345) 10 (MicrosecondCounter.init "foo" 3)).

(** Sum, arithmetic mean and two-pass population standard deviation of a
    list of reals. *)
Definition Rsum (l : list R) : R := fold_right Rplus 0%R l.

Definition mean (l : list R) : R := (Rsum l / INR (length l))%R.

Definition pstdev (l : list R) : R :=
  sqrt (Rsum (map (fun x => (x - mean l) * (x - mean l))%R l) / INR (length l)).

(** Counters built with the constructors' default arguments. *)
Definition new_MinMaxAvgCounter : instance := MinMaxAvgCounter.init "" (PyInt 1) 3.
Definition new_StdDevCounter : instance := StdDevCounter.init "" (PyInt 1) 3.
(** ** The methods in direct style *)

(** The state [MinMaxAvgCounter.record] has reached when it comes to the
    update of [avg]: the call is counted, the clock readings are stored
    and the extrema are updated. *)
Definition MinMaxAvgCounter_counted (v : pyval) (t : datetime) (o : instance) : instance :=
  {| cls := cls o; name := name o; _prefix := _prefix o;
     first := match first o with None => Some t | Some f => Some f end;
     last := Some t;
     count := count o + 1;
     max := if py_gt v (max o) then v else max o;
     min := if py_lt v (min o) || py_eq (PyInt 0) (min o) then v else min o;
     avg := avg o;
     _scale := _scale o; _precision := _precision o;
     _mean2 := _mean2 o; stddev := stddev o |}.

(** [self.avg + (value - self.avg) / self.count]. *)
Definition avg_update (v : pyval) (a : num) (c : Z) : result num :=
  match py_sub v a with
  | Raise e => Raise e
  | Ok d =>
      match num_div d (PyInt c) with
      | Raise e => Raise e
      | Ok q => num_add a q
      end
  end.

(** [self._mean2 + delta * (value - self.avg)]. *)
Definition mean2_update (v : pyval) (delta m2 a : num) : result num :=
  match py_sub v a with
  | Raise e => Raise e
  | Ok d =>
      match num_mul delta d with
      | Raise e => Raise e
      | Ok p => num_add m2 p
      end
  end.

(** [math.sqrt(self._mean2 / self.count)]. *)
Definition stddev_update (m2 : num) (c : Z) : result num :=
  match num_div m2 (PyInt c) with
  | Raise e => Raise e
  | Ok q => math_sqrt q
  end.

(** ** Counters that hold integers *)

Definition int_of (n : num) : Z :=
  match n with
  | PyInt z => z
  | PyFloat _ => 0
  end.

(** The state after [MinMaxAvgCounter.record] returned on the [int] [z],
    for a counter whose avg is an [int]: the division of the update is a
    floor division. *)
Definition MinMaxAvgCounter_next (z : Z) (t : datetime) (o : instance) : instance :=
  set_avg (PyInt (int_of (avg o) + (z - int_of (avg o)) / (count o + 1)))
    (MinMaxAvgCounter_counted (PyInt z) t o).

(** The state [StdDevCounter.record] has reached on the [int] [z] when it
    comes to the update of stddev, for a counter whose avg and accumulator
    are [int]s. *)
Definition StdDevCounter_accumulated (z : Z) (t : datetime) (o : instance) : instance :=
  let o1 := MinMaxAvgCounter_next z t o in
  set_mean2
    (PyInt (int_of (_mean2 o) + (z - int_of (avg o)) * (z - int_of (avg o1))))
    o1.

(** A counter that has only recorded [int]s: avg and the accumulator are
    [int]s, and neither the count nor the accumulator is negative. *)
Definition consistent (o : instance) : Prop :=
  0 <= count o /\
  exists a m, avg o = PyInt a /\ _mean2 o = PyInt m /\ 0 <= m.

(** ** The report, in the words of the specification *)

(** The prefix of a counter's field keys: ["{name}_"] when the name is not
    empty, nothing otherwise. *)
Definition spec_prefix (nm : string) : string :=
  if String.eqb nm "" then "" else nm ++ "_".

(** The float of a statistic. *)
Definition float_value (v : pyval) : float :=
  match v with
  | PNum (PyInt z) => float_of_Z z
  | PNum (PyFloat f) => f
  | _ => S754_zero false
  end.

(** The fields of the counter stored under [nm], in the fixed order count,
    first, last, min, avg, max, stddev; the four statistics are divided by
    the scale 1000000.0 and printed with the counter's precision. *)
Definition spec_counter_fields `{Formatting} (nm : string) (c : instance) : list string :=
  let p := spec_prefix nm in
  let stat (x : pyval) :=
    format_f (_precision c) (float_div (float_value x) 1000000) in
  [ p ++ "count=" ++ format_d (count c);
    p ++ "first=" ++ from_option isoformat "" (first c);
    p ++ "last=" ++ from_option isoformat "" (last c);
    p ++ "min=" ++ stat (min c);
    p ++ "avg=" ++ stat (avg c);
    p ++ "max=" ++ stat (max c);
    p ++ "stddev=" ++ stat (stddev c) ].

Definition spec_entry_fields `{Formatting} (d : gmap string instance) (k : string) : list string :=
  match d !! k with
  | Some c => spec_counter_fields k c
  | None => []
  end.

(** The snapshot for the entries taken in the order [keys]: the uptime,
    the last activity, then every entry's fields, all joined by ["&"]. *)
Definition spec_snapshot `{Formatting} (now : datetime) (s : ElapsedTimeStats.t)
    (keys : list string) : string :=
  String.concat "&"
    ([ "uptime=" ++ str_timedelta (datetime_sub now (ElapsedTimeStats.started s));
       "last=" ++ from_option isoformat "" (ElapsedTimeStats.last s) ]
     ++ flat_map (spec_entry_fields (ElapsedTimeStats.counters s)) keys).

(** A statistic that can be divided by a float: a float, or an [int]
    within the range of the floats. *)
Definition convertible (v : pyval) : Prop :=
  match v with
  | PNum (PyInt z) => Z.abs z < float_limit
  | PNum (PyFloat _) => True
  | _ => False
  end.

(** An entry that can be rendered: a [MicrosecondCounter] named after its
    key, with the precision 3 the registry gives its counters, that
    recorded at least one sample and whose statistics are numbers within
    the range of the floats. *)
Definition renderable (k : string) (c : instance) : Prop :=
  cls c = MicrosecondCounterClass /\ name c = k /\
  _prefix c = spec_prefix k /\ _scale c = PyFloat 1000000 /\
  _precision c = 3 /\
  is_Some (first c) /\ is_Some (last c) /\
  convertible (min c) /\ convertible (avg c) /\
  convertible (max c) /\ convertible (stddev c).

(** Formatting functions to run examples with: a float is printed as its
    mantissa and its binary exponent. *)
Definition plain_float (f : float) : string :=
  match f with
  | S754_zero s => if s then "-0" else "0"
  | S754_infinity s => if s then "-inf" else "inf"
  | S754_nan => "nan"
  | S754_finite s m e =>
      (if s then "-" else "") ++ format_d (Z.pos m) ++ "p" ++ format_d e
  end.

#[local] Instance plain_formatting : Formatting :=
  {| isoformat := format_d;
     str_timedelta := fun td => format_d (total_microseconds td);
     format_f := fun _ f => plain_float f |}.

(** The registry after the session [foo_calls]. *)
Definition foo_registry : ElapsedTimeStats.t :=
  run_calls foo_calls (ElapsedTimeStats.init 0).

Definition bar_counter : instance :=
  snd (StdDevCounter.record (PyInt 54321) 20 (MicrosecondCounter.init "bar" 3)).

(** A counter that has recorded the [int]s 3 and 4. *)
Definition counter_3_4 : instance :=
  snd (record_all StdDevCounter.record (at_time 7 (ints [3; 4])) new_StdDevCounter).

(** A counter that has recorded the [int] 0 twice. *)
Definition counter_0_0 : instance :=
  snd (record_all StdDevCounter.record (at_time 7 (ints [0; 0])) new_StdDevCounter).

(** Every call of the list returns. *)
Fixpoint all_returned (cs : list call) (s : ElapsedTimeStats.t) : Prop :=
  match cs with
  | [] => True
  | c :: rest =>
      fst (run_call c s) = Ok tt /\ all_returned rest (snd (run_call c s))
  end.

(** ** Further runs *)

(** [Counter.record] called once per clock reading of the list. *)
Fixpoint Counter_record_all (times : list datetime) : M unit :=
  match times with
  | [] => ret tt
  | t :: rest => (Counter.record t ;;; Counter_record_all rest)%py
  end.

(** ** The calls of a session *)

Definition call_name (c : call) : string :=
  match c with
  | RecordDelta nm _ _ _ => nm
  | RecordElapsed nm _ _ _ _ => nm
  end.

(** The sample a call hands to the counter's [record]. *)
Definition call_value (c : call) : pyval :=
  match c with
  | RecordDelta _ (ElapsedTimeStats.Value v) _ _ => v
  | RecordDelta _ (ElapsedTimeStats.Timedelta td) _ _ =>
      PNum (PyInt (microseconds td))
  | RecordElapsed _ start t_now _ _ =>
      PNum (PyInt (microseconds (datetime_sub t_now start)))
  end.

Definition call_t_record (c : call) : datetime :=
  match c with
  | RecordDelta _ _ t _ => t
  | RecordElapsed _ _ _ t _ => t
  end.

Definition call_t_last (c : call) : datetime :=
  match c with
  | RecordDelta _ _ _ t => t
  | RecordElapsed _ _ _ _ t => t
  end.

(** The call hands a number to [record]. *)
Definition carries_number (c : call) : bool :=
  match call_value c with
  | PNum _ => true
  | _ => false
  end.

(** The call is for the name [nm] and hands a number to [record]. *)
Definition recorded_for (nm : string) (c : call) : bool :=
  String.eqb (call_name c) nm && carries_number c.

(** The count of the entry of [nm], 0 when there is none. *)
Definition entry_count (s : ElapsedTimeStats.t) (nm : string) : Z :=
  match ElapsedTimeStats.counters s !! nm with
  | Some c => count c
  | None => 0
  end.
(** ** Samples of moderate size *)

(** A bound far above every duration in microseconds, and low enough for
    the accumulator divided by the count to stay within the floats. *)
Definition sample_limit : Z := 2 ^ 510.

Definition small (z : Z) : Prop := Z.abs z <= sample_limit.

(** The samples of a moderate session: an [int] of moderate size (so
    every [microseconds] attribute), a string or [None]. *)
Definition small_sample (v : pyval) : bool :=
  match v with
  | PNum (PyInt z) => Z.abs z <=? sample_limit
  | PNum (PyFloat _) => false
  | _ => true
  end.

Definition small_call (c : call) : Prop := small_sample (call_value c) = true.

(** The state after [StdDevCounter.record] returned on the [int] [z]. *)
Definition StdDevCounter_next (z : Z) (t : datetime) (o : instance) : instance :=
  let o2 := StdDevCounter_accumulated z t o in
  if 2 <? count o2
  then set_stddev (PyFloat (float_sqrt (int_of (_mean2 o2) / count o2))) o2
  else o2.

(** A counter that has recorded [int]s of moderate size only. *)
Definition bounded (o : instance) : Prop :=
  0 <= count o /\
  (exists mn mx a m,
     min o = PNum (PyInt mn) /\ max o = PNum (PyInt mx) /\
     avg o = PyInt a /\ _mean2 o = PyInt m /\
     small mn /\ small mx /\ small a /\
     0 <= m <= count o * (4 * sample_limit * sample_limit)) /\
  (stddev o = PyInt 0 \/ exists f, stddev o = PyFloat f).

(** An entry as the registry keeps it in a moderate session: a
    [MicrosecondCounter] named after its key, bounded, and holding clock
    readings exactly when it has counted a sample. *)
Definition kept (k : string) (c : instance) : Prop :=
  cls c = MicrosecondCounterClass /\ name c = k /\
  _prefix c = spec_prefix k /\ _scale c = PyFloat 1000000 /\
  _precision c = 3 /\
  bounded c /\
  (count c = 0 -> first c = None) /\
  (0 < count c -> is_Some (first c) /\ is_Some (last c)).

Definition all_kept (s : ElapsedTimeStats.t) : Prop :=
  forall k c, ElapsedTimeStats.counters s !! k = Some c -> kept k c.

(** The state of the entry of a call after the call. *)
Definition entry_after (c : call) (s : ElapsedTimeStats.t) : instance :=
  let e := fst (ElapsedTimeStats.getitem (call_name c) (ElapsedTimeStats.counters s)) in
  match call_value c with
  | PNum (PyInt z) => StdDevCounter_next z (call_t_record c) e
  | _ => e
  end.

(** ** The connection handler of [trunk/stattrap/server.py] *)

Module Handler.

(** What the handler asks of its channel, the [asynchat.async_chat] it
    extends: [self.push(data)] and [self.close_when_done()]. *)
Inductive request : Type :=
| Push (data : string)
| CloseWhenDone.

(** The handler: its input buffer, the terminator it set, and the requests
    it has made of the channel so far, oldest first. *)
Record t : Type := {
  ibuffer : list string;
  terminator : string;
  requests : list request
}.

Definition crlf : string :=
  String (ascii_of_nat 13) (String (ascii_of_nat 10) EmptyString).

(** [Handler.__init__(self, conn)]. *)
Definition init : t :=
  {| ibuffer := []; terminator := crlf; requests := [] |}.

(** [Handler.collect_incoming_data(self, data)]. *)
Definition collect_incoming_data (data : string) (self : t) : t :=
  {| ibuffer := ibuffer self ++ [data];
     terminator := terminator self;
     requests := requests self |}.

(** [Handler.found_terminator(self)]. *)
Definition found_terminator (self : t) : t :=
  let cmd := String.concat "" (ibuffer self) in
  {| ibuffer := [];
     terminator := terminator self;
     requests := requests self ++
                 [ Push ("Thanks for saying '" ++ cmd ++ "'" ++ crlf);
                   CloseWhenDone ] |}.

(** One command as the channel delivers it: its chunks, then the
    terminator. *)
Definition command (chunks : list string) (self : t) : t :=
  found_terminator
    (fold_left (fun h data => collect_incoming_data data h) chunks self).

Definition commands (cmds : list (list string)) (self : t) : t :=
  fold_left (fun h chunks => command chunks h) cmds self.

End Handler.

(** ** Runs on a list of samples *)

Definition floats (zs : list Z) : list pyval := map (fun z : Z => PNum (PyFloat z)) zs.

Definition is_int (v : pyval) : Prop := exists z, v = PNum (PyInt z).

(** A sample that is not a [float]: an [int], a string or [None]. *)
Definition not_a_float (v : pyval) : Prop :=
  match v with
  | PNum (PyFloat _) => False
  | _ => True
  end.

Definition sample_int (v : pyval) : Z :=
  match v with
  | PNum (PyInt z) => z
  | _ => 0
  end.

(** The integers of a list of samples, in the order they were recorded. *)
Definition sample_ints (samples : list (pyval * datetime)) : list Z :=
  map (fun s => sample_int (fst s)) samples.

(** Smallest and largest element of a list of integers. *)
Definition Zlist_min (l : list Z) : Z :=
  match l with
  | [] => 0
  | x :: rest => fold_left Z.min rest x
  end.

Definition Zlist_max (l : list Z) : Z :=
  match l with
  | [] => 0
  | x :: rest => fold_left Z.max rest x
  end.

(** A float that is neither below zero nor minus infinity. *)
Definition float_not_negative (f : float) : bool :=
  match f with
  | S754_infinity true | S754_finite true _ _ => false
  | _ => true
  end.

(** A scale of zero: the [int] 0 or a float zero. *)
Definition zero_scale (scale : num) : bool :=
  match scale with
  | PyInt z => z =? 0
  | PyFloat f => float_is_zero f
  end.

(** Runs to try the statements on. *)
Definition negative_run : list (pyval * datetime) := at_time 7 (ints [-5; -3]).
Definition four_run : list (pyval * datetime) := at_time 7 (ints [4; 8; 6; 2]).
Definition mixed_run : list (pyval * datetime) :=
  at_time 7 [PNum (PyInt 4); PNum (PyInt 8); PNum (PyInt 6); PStr "oops"; PNum (PyInt 2)].

(** * Properties *)

(** ** Proof tools *)

(** Case analysis on a scrutinee of the goal that has no case analysis
    inside. *)
Ltac break_match :=
  match goal with
  | |- context [match ?x with _ => _ end] =>
      lazymatch x with
      | context [match _ with _ => _ end] => fail
      | _ => destruct x eqn:?
      end
  end.

(** ** The methods in direct style *)

Lemma Counter_record_closed (t : datetime) (o : instance) :
  Counter.record t o =
  (Ok tt,
   {| cls := cls o; name := name o; _prefix := _prefix o;
      first := match first o with None => Some t | Some f => Some f end;
      last := Some t; count := count o + 1;
      max := max o; min := min o; avg := avg o; _scale := _scale o;
      _precision := _precision o; _mean2 := _mean2 o; stddev := stddev o |}).
Proof. destruct o as [? ? ? [f|] ? ? ? ? ? ? ? ? ?]; reflexivity. Qed.

(** [MinMaxAvgCounter.record] counts the call and updates the extrema,
    then updates [avg] unless the arithmetic raises. *)
Lemma MinMaxAvgCounter_record_eq (v : pyval) (t : datetime) (o : instance) :
  MinMaxAvgCounter.record v t o =
  match avg_update v (avg o) (count o + 1) with
  | Raise e => (Raise e, MinMaxAvgCounter_counted v t o)
  | Ok s => (Ok tt, set_avg s (MinMaxAvgCounter_counted v t o))
  end.
Proof.
  unfold MinMaxAvgCounter.record, bind at 1. rewrite Counter_record_closed.
  destruct o as [c0 n0 p0 f0 l0 k0 mx0 mn0 a0 sc0 pr0 m0 sd0].
  unfold avg_update, MinMaxAvgCounter_counted.
  cbv beta iota zeta delta
    [bind get modify lift set_max set_min set_avg
     cls name _prefix first last count max min avg _scale _precision
     _mean2 stddev].
  destruct f0 as [f|]; destruct (py_gt v mx0);
    destruct (py_lt v mn0 || py_eq (PyInt 0) mn0);
    (destruct (py_sub v a0) as [d|e]; [|reflexivity];
     destruct (num_div d (PyInt (k0 + 1))) as [q|e]; [|reflexivity];
     destruct (num_add a0 q); reflexivity).
Qed.

(** [StdDevCounter.record] first computes [delta], then lets
    [MinMaxAvgCounter.record] work, then updates the accumulator and, from
    the third sample on, stddev. *)
Lemma StdDevCounter_record_eq (v : pyval) (t : datetime) (o : instance) :
  StdDevCounter.record v t o =
  match py_sub v (avg o) with
  | Raise e => (Raise e, o)
  | Ok delta =>
      match MinMaxAvgCounter.record v t o with
      | (Raise e, o1) => (Raise e, o1)
      | (Ok _, o1) =>
          match mean2_update v delta (_mean2 o1) (avg o1) with
          | Raise e => (Raise e, o1)
          | Ok s =>
              if 2 <? count o1
              then match stddev_update s (count o1) with
                   | Raise e => (Raise e, set_mean2 s o1)
                   | Ok r => (Ok tt, set_stddev r (set_mean2 s o1))
                   end
              else (Ok tt, set_mean2 s o1)
          end
      end
  end.
Proof.
  unfold StdDevCounter.record.
  cbv beta iota zeta delta [bind get lift].
  destruct (py_sub v (avg o)) as [delta|e]; [|reflexivity].
  destruct (MinMaxAvgCounter.record v t o) as [[[]|e] o1]; [|reflexivity].
  unfold mean2_update, stddev_update.
  destruct o1 as [c0 n0 p0 f0 l0 k0 mx0 mn0 a0 sc0 pr0 m0 sd0].
  cbv beta iota zeta delta
    [modify when set_mean2 set_stddev
     cls name _prefix first last count max min avg _scale _precision
     _mean2 stddev].
  destruct (py_sub v a0) as [d|e]; [|reflexivity].
  destruct (num_mul delta d) as [p|e]; [|reflexivity].
  destruct (num_add m0 p) as [s|e]; [|reflexivity].
  destruct (2 <? k0); [|reflexivity].
  destruct (num_div s (PyInt k0)) as [q|e]; [|reflexivity].
  destruct (math_sqrt q); reflexivity.
Qed.

(** ** Identity of an object under [record] *)

Lemma Counter_record_identity (now : datetime) (o : instance) :
  same_identity o (snd (Counter.record now o)).
Proof. rewrite Counter_record_closed. repeat split; reflexivity. Qed.

Lemma MinMaxAvgCounter_record_identity (v : pyval) (now : datetime) (o : instance) :
  same_identity o (snd (MinMaxAvgCounter.record v now o)).
Proof.
  rewrite MinMaxAvgCounter_record_eq.
  destruct (avg_update v (avg o) (count o + 1)); repeat split; reflexivity.
Qed.

Lemma StdDevCounter_record_identity (v : pyval) (now : datetime) (o : instance) :
  same_identity o (snd (StdDevCounter.record v now o)).
Proof.
  rewrite StdDevCounter_record_eq.
  destruct (py_sub v (avg o)); [|repeat split; reflexivity].
  pose proof (MinMaxAvgCounter_record_identity v now o) as H.
  destruct (MinMaxAvgCounter.record v now o) as [[[]|e] o1]; cbn [snd] in *;
    [|exact H].
  repeat break_match; exact H.
Qed.

Lemma call_record_identity (v : pyval) (now : datetime) (o : instance) :
  same_identity o (snd (call_record v now o)).
Proof.
  unfold call_record. destruct (cls o) eqn:E.
  - repeat split; reflexivity.
  - apply MinMaxAvgCounter_record_identity.
  - apply StdDevCounter_record_identity.
  - apply StdDevCounter_record_identity.
Qed.

(** ** The registry's dictionary *)

Lemma MicrosecondCounter_init_ok (k : string) (p : Z) :
  registry_entry_ok k (MicrosecondCounter.init k p).
Proof. repeat split; reflexivity. Qed.

Lemma registry_entry_ok_identity (k : string) (c c' : instance) :
  same_identity c c' -> registry_entry_ok k c -> registry_entry_ok k c'.
Proof.
  intros (Hc & Hn & _ & Hs & _) (H1 & H2 & H3).
  repeat split; congruence.
Qed.

Lemma getitem_ok (k : string) (d : gmap string instance) :
  map_Forall registry_entry_ok d ->
  registry_entry_ok k (fst (ElapsedTimeStats.getitem k d)) /\
  map_Forall registry_entry_ok (snd (ElapsedTimeStats.getitem k d)).
Proof.
  intros Hd. unfold ElapsedTimeStats.getitem.
  destruct (d !! k) as [c|] eqn:E; cbn.
  - split; [eapply Hd; eassumption | assumption].
  - split; [apply MicrosecondCounter_init_ok|].
    apply map_Forall_insert_2; [apply MicrosecondCounter_init_ok | assumption].
Qed.

(** The dictionary after [record_delta]: the entry of [nm] is the object
    [record] worked on, in the state [record] left it. *)
Lemma record_delta_counters (nm : string) (delta : ElapsedTimeStats.sample)
    (t1 t2 : datetime) (s : ElapsedTimeStats.t) :
  ElapsedTimeStats.counters (snd (ElapsedTimeStats.record_delta nm delta t1 t2 s)) =
  let value := match delta with
               | ElapsedTimeStats.Timedelta td => PNum (PyInt (microseconds td))
               | ElapsedTimeStats.Value v => v
               end in
  let cd := ElapsedTimeStats.getitem nm (ElapsedTimeStats.counters s) in
  <[nm := snd (call_record value t1 (fst cd))]> (snd cd).
Proof.
  unfold ElapsedTimeStats.record_delta. cbv zeta.
  destruct (ElapsedTimeStats.getitem nm (ElapsedTimeStats.counters s)) as [c d].
  cbn [fst snd].
  destruct (call_record _ t1 c) as [[[]|e] c']; reflexivity.
Qed.

Lemma run_call_entries (c : call) (s : ElapsedTimeStats.t) :
  map_Forall registry_entry_ok (ElapsedTimeStats.counters s) ->
  map_Forall registry_entry_ok (ElapsedTimeStats.counters (snd (run_call c s))).
Proof.
  intros Hs.
  assert (Hd : forall nm delta t1 t2,
    map_Forall registry_entry_ok
      (ElapsedTimeStats.counters (snd (ElapsedTimeStats.record_delta nm delta t1 t2 s)))).
  { intros nm delta t1 t2. rewrite record_delta_counters. cbv zeta.
    destruct (getitem_ok nm _ Hs) as [Hc Hd].
    apply map_Forall_insert_2; [|exact Hd].
    eapply registry_entry_ok_identity; [apply call_record_identity | exact Hc]. }
  destruct c; cbn [run_call]; [apply Hd|].
  unfold ElapsedTimeStats.record_elapsed. apply Hd.
Qed.

Lemma run_calls_entries (cs : list call) (s : ElapsedTimeStats.t) :
  map_Forall registry_entry_ok (ElapsedTimeStats.counters s) ->
  map_Forall registry_entry_ok (ElapsedTimeStats.counters (run_calls cs s)).
Proof.
  revert s. induction cs as [|c cs IH]; intros s Hs; cbn [run_calls].
  - exact Hs.
  - apply IH, run_call_entries, Hs.
Qed.

(** C10: after any sequence of [record_delta] and [record_elapsed] calls on
    a new registry, whether they returned or raised, every entry of the
    dictionary is a [MicrosecondCounter] whose name is the key it is stored
    under and whose scale is 1000000. *)
Theorem registry_entries_are_named_microsecond_counters
    (cs : list call) (t0 : datetime) (k : string) (c : instance) :
  ElapsedTimeStats.counters (run_calls cs (ElapsedTimeStats.init t0)) !! k = Some c ->
  cls c = MicrosecondCounterClass /\ name c = k /\ _scale c = PyFloat 1000000.
Proof.
  intros Hk.
  assert (H : map_Forall registry_entry_ok
                (ElapsedTimeStats.counters (run_calls cs (ElapsedTimeStats.init t0)))).
  { apply run_calls_entries. cbn. apply map_Forall_empty. }
  exact (H k c Hk).
Qed.

Lemma registry_entries_witness :
  cls foo_counter = MicrosecondCounterClass /\ name foo_counter = "foo" /\
  _scale foo_counter = PyFloat 1000000.
Proof.
  apply (registry_entries_are_named_microsecond_counters foo_calls 0 "foo" foo_counter).
  vm_compute. reflexivity.
Defined.

(** ** Runs on integer samples *)

(** C1: on a new [MinMaxAvgCounter] the first sample does not always set
    both extrema.  After the single sample [-5] the count is 1 and min is
    [-5], but max is still the initial 0; after the samples [0] and [5]
    the count is 2 and max is 5, but min is 5 because the recorded 0 was
    taken for the initial value and overwritten. *)
Theorem minmax_zero_sentinel_loses_extrema :
  let neg := snd (record_all MinMaxAvgCounter.record
                    (at_time 7 (ints [-5])) new_MinMaxAvgCounter) in
  let zero := snd (record_all MinMaxAvgCounter.record
                     (at_time 7 (ints [0; 5])) new_MinMaxAvgCounter) in
  (count neg = 1 /\ min neg = PyInt (-5) /\ max neg = PyInt 0) /\
  (count zero = 2 /\ min zero = PyInt 5 /\ max zero = PyInt 5).
Proof. repeat split; reflexivity. Qed.

(** C8: after the samples [0] and [5] on a new [MinMaxAvgCounter] the
    count is 2, min is 5, avg is 2 and max is 5: avg is below min. *)
Theorem avg_below_min_after_zero_sample :
  let o := snd (record_all MinMaxAvgCounter.record
                  (at_time 7 (ints [0; 5])) new_MinMaxAvgCounter) in
  count o = 2 /\ min o = PyInt 5 /\ avg o = PyInt 2 /\ max o = PyInt 5 /\
  py_lt (avg o) (min o) = true.
Proof. repeat split; reflexivity. Qed.

(** C3: after the integer samples [1] and [2] on a new [MinMaxAvgCounter]
    avg is the integer 1, while the arithmetic mean is 3/2: the division
    of the update is a floor division. *)
Theorem avg_of_int_samples_is_floored :
  let o := snd (record_all MinMaxAvgCounter.record
                  (at_time 7 (ints [1; 2])) new_MinMaxAvgCounter) in
  avg o = PyInt 1 /\ mean [1; 2]%R = (3 / 2)%R /\
  to_float (avg o) <> mean [1; 2]%R.
Proof.
  cbv zeta.
  assert (Hm : mean [1; 2]%R = (3 / 2)%R).
  { unfold mean, Rsum. cbn. lra. }
  repeat split; [exact Hm|].
  rewrite Hm.
  change (IZR 1 <> (3 / 2)%R). lra.
Qed.

(** C2: after the integer samples [1], [2], [3] on a new [StdDevCounter]
    avg is 1, the accumulator is 5 and stddev is [sqrt (5 // 3) = sqrt 1],
    while the two-pass population standard deviation is [sqrt (2/3)]. *)
Theorem stddev_of_int_samples_is_floored :
  let o := snd (record_all StdDevCounter.record
                  (at_time 7 (ints [1; 2; 3])) new_StdDevCounter) in
  avg o = PyInt 1 /\ _mean2 o = PyInt 5 /\ stddev o = PyFloat (float_sqrt 1) /\
  pstdev [1; 2; 3]%R = sqrt (2 / 3) /\
  to_float (stddev o) <> pstdev [1; 2; 3]%R.
Proof.
  cbv zeta.
  assert (Hp : pstdev [1; 2; 3]%R = sqrt (2 / 3)).
  { unfold pstdev, mean, Rsum. cbn. f_equal. field. }
  assert (Hs : stddev (snd (record_all StdDevCounter.record
                              (at_time 7 (ints [1; 2; 3])) new_StdDevCounter))
               = PyFloat (float_sqrt 1)).
  { vm_compute. reflexivity. }
  split; [reflexivity|]. split; [reflexivity|].
  split; [exact Hs|]. split; [exact Hp|].
  rewrite Hp, Hs.
  replace (to_float (PyFloat (float_sqrt 1))) with (sqrt 1).
  - intros E. apply sqrt_inj in E; lra.
  - rewrite sqrt_1.
    change (1 = 1 * IZR 4503599627370496 * / (2 ^ 52))%R.
    replace (2 ^ 52)%R with (IZR 4503599627370496).
    + field.
    + change 2%R with (IZR 2). rewrite pow_IZR. reflexivity.
Qed.

(** ** Durations *)

(** [record_delta] forwards the [microseconds] attribute of a
    [timedelta]. *)
Lemma record_delta_timedelta (nm : string) (td : timedelta)
    (t1 t2 : datetime) (s : ElapsedTimeStats.t) :
  ElapsedTimeStats.record_delta nm (ElapsedTimeStats.Timedelta td) t1 t2 s =
  ElapsedTimeStats.record_delta nm
    (ElapsedTimeStats.Value (PyInt (microseconds td))) t1 t2 s.
Proof. reflexivity. Qed.

(** That attribute is the whole span exactly for the durations from zero
    to less than a second. *)
Lemma microseconds_of_short_timedelta (us : Z) :
  0 <= us < 1000000 ->
  microseconds (timedelta_of_us us) = total_microseconds (timedelta_of_us us).
Proof.
  intros Hus. unfold total_microseconds, timedelta_of_us. cbn.
  rewrite (Z.div_small us 86400000000) by lia.
  rewrite (Z.div_small us 1000000) by lia.
  reflexivity.
Qed.

Lemma total_microseconds_of_us (us : Z) :
  total_microseconds (timedelta_of_us us) = us.
Proof.
  unfold total_microseconds, timedelta_of_us. cbn.
  pose proof (Z.div_mod us 1000000 ltac:(lia)) as H1.
  pose proof (Z.div_mod (us / 1000000) 86400 ltac:(lia)) as H2.
  replace (us / 86400000000) with (us / 1000000 / 86400)
    by (rewrite Z.div_div by lia; reflexivity).
  lia.
Qed.

(** C4: a [timedelta] of 1.5 seconds spans 1500000 microseconds, but
    [record_delta] records 500000 for it, where recording the raw count
    records 1500000; [record_elapsed] does the same for an event that
    began 1.5 seconds before the clock reading. *)
Theorem record_delta_drops_whole_seconds :
  let td := mk_timedelta 0 1 500000 in
  let fresh := ElapsedTimeStats.init 0 in
  let as_timedelta :=
    snd (ElapsedTimeStats.record_delta "x" (ElapsedTimeStats.Timedelta td) 10 11 fresh) in
  let as_number :=
    snd (ElapsedTimeStats.record_delta "x"
           (ElapsedTimeStats.Value (PyInt (total_microseconds td))) 10 11 fresh) in
  let as_elapsed :=
    snd (ElapsedTimeStats.record_elapsed "x" 100 1500100 10 11 fresh) in
  total_microseconds td = 1500000 /\
  max <$> ElapsedTimeStats.counters as_timedelta !! "x" = Some (PNum (PyInt 500000)) /\
  max <$> ElapsedTimeStats.counters as_number !! "x" = Some (PNum (PyInt 1500000)) /\
  max <$> ElapsedTimeStats.counters as_elapsed !! "x" = Some (PNum (PyInt 500000)).
Proof. repeat split; vm_compute; reflexivity. Qed.

(** ** Rendering before the first sample *)

(** C5: rendering with no recorded sample raises.  [Counter.__repr__] on
    a new counter of any class, and [ElapsedTimeStats.__repr__] on a new
    registry, call [isoformat] on [None], an [AttributeError]. *)
Theorem repr_before_first_record_raises `{Formatting} :
  (forall nm, call_repr (Counter.init nm) = Raise AttributeError) /\
  (forall nm scale precision,
     call_repr (MinMaxAvgCounter.init nm scale precision) = Raise AttributeError) /\
  (forall nm scale precision,
     call_repr (StdDevCounter.init nm scale precision) = Raise AttributeError) /\
  (forall nm precision,
     call_repr (MicrosecondCounter.init nm precision) = Raise AttributeError) /\
  (forall now t0,
     ElapsedTimeStats.repr now (ElapsedTimeStats.init t0) = Raise AttributeError).
Proof. repeat split; reflexivity. Qed.

(** ** Arithmetic of the numeric tower *)

(** The conversion of an [int] raises exactly when rounding it gives an
    infinity: the two integers at the limit. *)
Lemma float_of_int_limit :
  float_of_int (float_limit - 1) = Ok (S754_finite false 9007199254740991 971) /\
  float_of_Z (float_limit - 1) = S754_finite false 9007199254740991 971 /\
  float_of_int float_limit = Raise OverflowError /\
  float_of_Z float_limit = S754_infinity false /\
  float_of_int (- float_limit) = Raise OverflowError /\
  float_of_Z (- float_limit) = S754_infinity true.
Proof. repeat split; vm_compute; reflexivity. Qed.

(** Rounding keeps the sign: a float made from a positive mantissa is not
    negative. *)
Lemma binary_round_aux_not_negative (m e : Z) (l : location) :
  float_not_negative (binary_round_aux 53 1024 false m e l) = true.
Proof.
  unfold binary_round_aux.
  destruct (shr_fexp 53 1024 m e l) as [mrs' e'].
  destruct (shr_fexp 53 1024 _ e' loc_Exact) as [mrs'' e''].
  destruct (shr_m mrs''); [reflexivity | | reflexivity].
  destruct (e'' <=? 1024 - 53); reflexivity.
Qed.

Lemma float_of_Z_not_negative (z : Z) :
  0 <= z -> float_not_negative (float_of_Z z) = true.
Proof.
  intros Hz. destruct z as [|p|p]; [reflexivity | | lia].
  unfold float_of_Z, binary_normalize, binary_round.
  destruct (shl_align p 0 _) as [mz ez].
  apply binary_round_aux_not_negative.
Qed.

Lemma float_sqrt_not_negative (f : float) :
  float_not_negative f = true -> float_not_negative (float_sqrt f) = true.
Proof.
  destruct f as [s|[|]| |[|] m e]; cbn; try discriminate; try reflexivity.
  intros _. destruct (SFsqrt_core_binary 53 1024 (Z.pos m) e) as [[mz ez] lz].
  apply binary_round_aux_not_negative.
Qed.

Lemma float_not_negative_ltb (f : float) :
  float_not_negative f = true -> SFltb f (S754_zero false) = false.
Proof. destruct f as [s|[|]| |[|] m e]; cbn; congruence. Qed.

(** A float that is not negative is not below the [int] 0. *)
Lemma float_not_negative_lt (f : float) :
  float_not_negative f = true -> num_lt (PyFloat f) (PyInt 0) = false.
Proof.
  destruct f as [s|[|]| |[|] m e]; try discriminate; try reflexivity.
  intros _. unfold num_lt, Z_float_compare.
  destruct (0 <=? e) eqn:E.
  - apply Z.leb_le in E.
    assert (H : 0 < Z.pos m * 2 ^ e)
      by (apply Z.mul_pos_pos; [lia | apply Z.pow_pos_nonneg; lia]).
    apply Z.compare_lt_iff in H. rewrite H. reflexivity.
  - rewrite Z.mul_0_l. reflexivity.
Qed.

Lemma float_of_int_small (z : Z) :
  Z.abs z < float_limit -> float_of_int z = Ok (float_of_Z z).
Proof.
  intros Hz. unfold float_of_int.
  destruct (Z.ltb_spec (Z.abs z) float_limit); [reflexivity | lia].
Qed.

Lemma float_of_int_large (z : Z) :
  float_limit <= Z.abs z -> float_of_int z = Raise OverflowError.
Proof.
  intros Hz. unfold float_of_int.
  destruct (Z.ltb_spec (Z.abs z) float_limit); [lia | reflexivity].
Qed.

(** [math.sqrt] on an [int] that is not negative: the root of its float,
    or an [OverflowError] when it has none. *)
Lemma math_sqrt_int (q : Z) :
  0 <= q < float_limit ->
  math_sqrt (PyInt q) = Ok (PyFloat (float_sqrt q)).
Proof.
  intros Hq. unfold math_sqrt, as_float.
  rewrite float_of_int_small by lia.
  rewrite float_not_negative_ltb by (apply float_of_Z_not_negative; lia).
  reflexivity.
Qed.

Lemma math_sqrt_int_overflow (q : Z) :
  float_limit <= q -> math_sqrt (PyInt q) = Raise OverflowError.
Proof.
  intros Hq. unfold math_sqrt, as_float.
  rewrite float_of_int_large by lia. reflexivity.
Qed.

Lemma math_sqrt_int_not_negative (q : Z) :
  0 <= q ->
  math_sqrt (PyInt q) = Ok (PyFloat (float_sqrt q)) \/
  math_sqrt (PyInt q) = Raise OverflowError.
Proof.
  intros Hq. destruct (Z.lt_ge_cases q float_limit).
  - left. apply math_sqrt_int. lia.
  - right. apply math_sqrt_int_overflow. assumption.
Qed.

Lemma avg_update_int (z a c : Z) :
  c <> 0 -> avg_update (PyInt z) (PyInt a) c = Ok (PyInt (a + (z - a) / c)).
Proof.
  intros Hc. unfold avg_update. cbn.
  destruct (Z.eqb_spec c 0); [contradiction | reflexivity].
Qed.

Lemma mean2_update_int (z d m a : Z) :
  mean2_update (PyInt z) (PyInt d) (PyInt m) (PyInt a)
  = Ok (PyInt (m + d * (z - a))).
Proof. reflexivity. Qed.

Lemma stddev_update_int (m c : Z) :
  c <> 0 -> stddev_update (PyInt m) c = math_sqrt (PyInt (m / c)).
Proof.
  intros Hc. unfold stddev_update. cbn [num_div].
  destruct (Z.eqb_spec c 0); [contradiction | reflexivity].
Qed.

(** ** Closed forms of [record] on an [int] *)

Lemma MinMaxAvgCounter_record_int (z : Z) (t : datetime) (o : instance) (a : Z) :
  avg o = PyInt a -> count o + 1 <> 0 ->
  MinMaxAvgCounter.record (PyInt z) t o = (Ok tt, MinMaxAvgCounter_next z t o).
Proof.
  intros Ha Hc. rewrite MinMaxAvgCounter_record_eq.
  unfold MinMaxAvgCounter_next. rewrite Ha.
  rewrite avg_update_int by exact Hc. reflexivity.
Qed.

Lemma StdDevCounter_record_int (z : Z) (t : datetime) (o : instance) (a m : Z) :
  avg o = PyInt a -> _mean2 o = PyInt m -> count o + 1 <> 0 ->
  StdDevCounter.record (PyInt z) t o =
  let o2 := StdDevCounter_accumulated z t o in
  if 2 <? count o2
  then match math_sqrt (PyInt (int_of (_mean2 o2) / count o2)) with
       | Raise e => (Raise e, o2)
       | Ok r => (Ok tt, set_stddev r o2)
       end
  else (Ok tt, o2).
Proof.
  intros Ha Hm Hc. rewrite StdDevCounter_record_eq.
  rewrite (MinMaxAvgCounter_record_int z t o a Ha Hc).
  unfold StdDevCounter_accumulated, MinMaxAvgCounter_next,
    MinMaxAvgCounter_counted.
  rewrite Ha, Hm.
  cbn [py_sub num_sub int_of set_avg set_mean2
       cls name _prefix first last count max min avg _scale _precision
       _mean2 stddev].
  rewrite mean2_update_int.
  destruct (2 <? count o + 1); [|reflexivity].
  rewrite stddev_update_int by exact Hc. reflexivity.
Qed.

(** A floor division by a positive count gives a value between zero and
    the dividend. *)
Lemma floor_div_between (d c : Z) :
  0 < c -> (0 <= d / c <= d) \/ (d <= d / c <= -1).
Proof.
  intros Hc.
  pose proof (Z.div_mod d c ltac:(lia)) as Hd.
  pose proof (Z.mod_pos_bound d c Hc) as Hm.
  destruct (Z.le_gt_cases 0 d).
  - left. assert (0 <= d / c) by (apply Z.div_pos; lia). nia.
  - right. nia.
Qed.

(** The increment of the accumulator is not negative, with the floor
    division of the average as well. *)
Lemma welford_increment_nonneg (z a c : Z) :
  0 < c -> 0 <= (z - a) * (z - (a + (z - a) / c)).
Proof.
  intros Hc.
  replace (z - (a + (z - a) / c)) with ((z - a) - (z - a) / c) by lia.
  pose proof (floor_div_between (z - a) c Hc) as [[H1 H2]|[H1 H2]]; nia.
Qed.

(** The integer average moves to a value between the old one and the
    sample. *)
Lemma avg_next_between (z a c : Z) :
  0 < c ->
  Z.min a z <= a + (z - a) / c <= Z.max a z.
Proof.
  intros Hc.
  pose proof (floor_div_between (z - a) c Hc) as [[H1 H2]|[H1 H2]]; lia.
Qed.

Lemma StdDevCounter_accumulated_consistent (z : Z) (t : datetime) (o : instance) :
  consistent o -> consistent (StdDevCounter_accumulated z t o).
Proof.
  intros (Hc & a & m & Ha & Hm & Hm0).
  unfold consistent, StdDevCounter_accumulated, MinMaxAvgCounter_next,
    MinMaxAvgCounter_counted.
  rewrite Ha, Hm.
  cbn [int_of set_avg set_mean2
       cls name _prefix first last count max min avg _scale _precision
       _mean2 stddev].
  split; [lia|]. eexists _, _. split; [reflexivity|]. split; [reflexivity|].
  pose proof (welford_increment_nonneg z a (count o + 1) ltac:(lia)). lia.
Qed.

(** On a consistent counter [StdDevCounter.record] of an [int] returns, or
    stops on the [OverflowError] of [math.sqrt] after it has updated
    everything but stddev; the state stays consistent. *)
Lemma StdDevCounter_record_int_consistent (z : Z) (t : datetime) (o : instance) :
  consistent o ->
  let r := StdDevCounter.record (PyInt z) t o in
  (fst r = Ok tt \/ fst r = Raise OverflowError) /\
  consistent (snd r) /\ count (snd r) = count o + 1.
Proof.
  intros Ho.
  pose proof (StdDevCounter_accumulated_consistent z t o Ho) as H2.
  destruct Ho as (Hc & a & m & Ha & Hm & Hm0).
  cbv zeta. rewrite (StdDevCounter_record_int z t o a m Ha Hm) by lia.
  cbv zeta.
  assert (Hk : count (StdDevCounter_accumulated z t o) = count o + 1)
    by reflexivity.
  destruct (2 <? count (StdDevCounter_accumulated z t o)) eqn:E;
    [|cbn [fst snd]; auto].
  destruct H2 as (Hc2 & a2 & m2 & Ha2 & Hm2 & Hm20).
  rewrite Hm2. cbn [int_of].
  destruct (math_sqrt_int_not_negative
              (m2 / count (StdDevCounter_accumulated z t o))) as [Hs|Hs].
  - apply Z.div_pos; lia.
  - rewrite Hs. cbn [fst snd]. split; [auto|]. split; [|exact Hk].
    split; [exact Hc2|]. exists a2, m2. auto.
  - rewrite Hs. cbn [fst snd]. split; [auto|]. split; [|exact Hk].
    split; [exact Hc2|]. exists a2, m2. auto.
Qed.

(** ** Failing calls *)

(** What [MinMaxAvgCounter.record] has done to the counter when it comes
    back, returning or raising. *)
Lemma MinMaxAvgCounter_record_always (v : pyval) (t : datetime) (o : instance) :
  let o' := snd (MinMaxAvgCounter.record v t o) in
  count o' = count o + 1 /\
  last o' = Some t /\
  first o' = match first o with None => Some t | Some f => Some f end /\
  max o' = (if py_gt v (max o) then v else max o) /\
  min o' = (if py_lt v (min o) || py_eq (PyInt 0) (min o) then v else min o).
Proof.
  cbv zeta. rewrite MinMaxAvgCounter_record_eq.
  destruct (avg_update v (avg o) (count o + 1)); repeat split; reflexivity.
Qed.

(** A sample that is not a number stops [StdDevCounter.record] at its
    first statement. *)
Lemma StdDevCounter_record_not_num (v : pyval) (t : datetime) (o : instance) :
  (forall n, v <> PNum n) ->
  StdDevCounter.record v t o = (Raise TypeError, o).
Proof.
  intros Hv. rewrite StdDevCounter_record_eq.
  destruct v as [n| |]; [destruct (Hv n); reflexivity | reflexivity..].
Qed.

(** C6, as the code has it: a [StdDevCounter.record] call that fails in
    its first statement, [delta = value - self.avg], leaves the counter
    exactly as it was; a sample that is not a number fails there, with a
    [TypeError].  A call that fails after its first statement has been
    counted: count is one more and last is the clock reading of the call,
    so the counter is not as it was. *)
Theorem StdDevCounter_record_failure
    (v : pyval) (t : datetime) (o o' : instance) (e : exn) :
  StdDevCounter.record v t o = (Raise e, o') ->
  ((py_sub v (avg o) = Raise e /\ o' = o) \/
   ((exists d, py_sub v (avg o) = Ok d) /\
    count o' = count o + 1 /\ last o' = Some t /\ o' <> o)) /\
  ((forall n, v <> PNum n) -> e = TypeError /\ o' = o).
Proof.
  intros H. split.
  - rewrite StdDevCounter_record_eq in H.
    destruct (py_sub v (avg o)) as [d|e0] eqn:Ed.
    + right. split; [eauto|].
      assert (Hk : count o' = count o + 1 /\ last o' = Some t).
      { pose proof (MinMaxAvgCounter_record_always v t o) as (Hc & Hl & _).
        destruct (MinMaxAvgCounter.record v t o) as [[[]|e1] o1];
          cbn [snd] in Hc, Hl.
        - destruct (mean2_update v d (_mean2 o1) (avg o1)) as [s|e1];
            [|inversion H; subst; auto].
          destruct (2 <? count o1); [|discriminate].
          destruct (stddev_update s (count o1)); [discriminate|].
          inversion H; subst. auto.
        - inversion H; subst. auto. }
      destruct Hk as [Hc Hl]. split; [exact Hc|]. split; [exact Hl|].
      intros ->. lia.
    + left. inversion H. auto.
  - intros Hv. rewrite (StdDevCounter_record_not_num v t o Hv) in H.
    inversion H. auto.
Qed.

Lemma StdDevCounter_record_failure_witness :
  count counter_3_4 = 2 /\
  StdDevCounter.record (PStr "abc") 9 counter_3_4 = (Raise TypeError, counter_3_4) /\
  py_sub (PStr "abc") (avg counter_3_4) = Raise TypeError.
Proof.
  assert (Hr : StdDevCounter.record (PStr "abc") 9 counter_3_4
               = (Raise TypeError, counter_3_4)) by reflexivity.
  split; [reflexivity|]. split; [exact Hr|].
  destruct (StdDevCounter_record_failure
              (PStr "abc") 9 counter_3_4 counter_3_4 TypeError Hr)
    as [[[H _]|[_ (_ & _ & H)]] _].
  - exact H.
  - destruct (H eq_refl).
Defined.

(** C6, as stated, fails.  [MinMaxAvgCounter.record] on the sample ["abc"]
    raises a [TypeError] at [value - self.avg], after the count was
    incremented, the clock readings stored and max and min set to the
    sample.  [StdDevCounter.record] on the sample [10 ** 200], after two
    samples 0, raises an [OverflowError] at [math.sqrt], after everything
    but stddev was updated. *)
Lemma record_failure_keeps_updates :
  (let r := MinMaxAvgCounter.record (PStr "abc") 7 new_MinMaxAvgCounter in
   fst r = Raise TypeError /\
   count new_MinMaxAvgCounter = 0 /\ count (snd r) = 1 /\
   first (snd r) = Some 7 /\ last (snd r) = Some 7 /\
   max (snd r) = PStr "abc" /\ min (snd r) = PStr "abc" /\
   avg (snd r) = avg new_MinMaxAvgCounter /\
   snd r <> new_MinMaxAvgCounter) /\
  (let r := StdDevCounter.record (PyInt (10 ^ 200)) 8 counter_0_0 in
   fst r = Raise OverflowError /\
   count counter_0_0 = 2 /\ count (snd r) = 3 /\
   last counter_0_0 = Some 7 /\ last (snd r) = Some 8 /\
   max counter_0_0 = PyInt 0 /\ max (snd r) = PyInt (10 ^ 200) /\
   avg counter_0_0 = PyInt 0 /\ avg (snd r) = PyInt (10 ^ 200 / 3) /\
   _mean2 counter_0_0 = PyInt 0 /\
   _mean2 (snd r) = PyInt (10 ^ 200 * (10 ^ 200 - 10 ^ 200 / 3)) /\
   stddev (snd r) = stddev counter_0_0 /\
   snd r <> counter_0_0).
Proof.
  cbv zeta. split.
  - repeat split; try reflexivity.
    intros E. apply (f_equal count) in E. discriminate E.
  - repeat split; try (vm_compute; reflexivity).
    intros E. apply (f_equal count) in E. vm_compute in E. discriminate E.
Qed.

(** ** The report *)

Lemma string_app_assoc (a b c : string) : ((a ++ b) ++ c = a ++ (b ++ c))%string.
Proof.
  induction a as [|x a IH]; [reflexivity|].
  change (String x ((a ++ b) ++ c) = String x (a ++ (b ++ c)))%string.
  rewrite IH. reflexivity.
Qed.

Lemma concat_cons2 (sep x y : string) (l : list string) :
  String.concat sep (x :: y :: l) = (x ++ sep ++ String.concat sep (y :: l))%string.
Proof. reflexivity. Qed.

(** Joining two lists that are not empty. *)
Lemma concat_app (sep : string) (l1 l2 : list string) :
  l1 <> [] -> l2 <> [] ->
  String.concat sep (l1 ++ l2)
  = (String.concat sep l1 ++ sep ++ String.concat sep l2)%string.
Proof.
  intros H1 H2. induction l1 as [|x [|y l1] IH]; [contradiction | |].
  - destruct l2 as [|z l2]; [contradiction | reflexivity].
  - change ((x :: y :: l1) ++ l2)%list with (x :: y :: (l1 ++ l2))%list.
    rewrite !concat_cons2.
    change (y :: (l1 ++ l2))%list with ((y :: l1) ++ l2)%list.
    rewrite IH by discriminate.
    rewrite !string_app_assoc. reflexivity.
Qed.

(** Joining joined segments is joining all their parts. *)
Lemma concat_segments (sep : string) (head : list string) (segs : list (list string)) :
  head <> [] -> Forall (fun seg => seg <> []) segs ->
  String.concat sep (head ++ map (String.concat sep) segs)
  = String.concat sep (head ++ List.concat segs).
Proof.
  intros Hh Hs. revert head Hh.
  induction Hs as [|seg segs Hseg Hs IH]; intros head Hh; [reflexivity|].
  assert (H1 : (head ++ [String.concat sep seg])%list <> [])
    by (destruct head; discriminate).
  assert (H2 : (head ++ seg)%list <> [])
    by (destruct head; [contradiction | discriminate]).
  cbn [map List.concat].
  change (head ++ String.concat sep seg :: map (String.concat sep) segs)%list
    with (head ++ [String.concat sep seg] ++ map (String.concat sep) segs)%list.
  rewrite !app_assoc.
  rewrite (IH _ H1).
  destruct (List.concat segs) as [|m ms] eqn:E.
  - rewrite !app_nil_r.
    rewrite (concat_app sep head [String.concat sep seg]) by (assumption || discriminate).
    rewrite (concat_app sep head seg) by assumption.
    reflexivity.
  - rewrite (concat_app sep _ (m :: ms) H1) by discriminate.
    rewrite (concat_app sep _ (m :: ms) H2) by discriminate.
    rewrite (concat_app sep head [String.concat sep seg]) by (assumption || discriminate).
    rewrite (concat_app sep head seg) by assumption.
    reflexivity.
Qed.

Lemma num_div_scale (n : num) :
  convertible (PNum n) ->
  num_div n (PyFloat 1000000)
  = Ok (PyFloat (float_div (float_value (PNum n)) 1000000)).
Proof.
  intros Hn. destruct n as [z|f]; cbn [convertible] in Hn.
  - unfold num_div, as_float. rewrite float_of_int_small by exact Hn.
    reflexivity.
  - reflexivity.
Qed.

Lemma py_div_scale (v : pyval) :
  convertible v ->
  py_div v (PyFloat 1000000)
  = Ok (PyFloat (float_div (float_value v) 1000000)).
Proof.
  destruct v as [n| |]; [apply num_div_scale | contradiction..].
Qed.

(** The rendering of a renderable entry is its fields joined by ["&"]. *)
Lemma call_repr_renderable `{Formatting} (k : string) (c : instance) :
  renderable k c ->
  call_repr c = Ok (String.concat "&" (spec_counter_fields k c)).
Proof.
  intros (Hcls & Hname & Hp & Hs & _ & [f Hf] & [l Hl] & Hmn & Hav & Hmx & Hsd).
  unfold call_repr, StdDevCounter.repr, MinMaxAvgCounter.repr, Counter.repr,
    spec_counter_fields.
  rewrite Hcls, Hf, Hl, Hs, Hp.
  rewrite (py_div_scale _ Hmn), (py_div_scale _ Hmx).
  rewrite (num_div_scale _ Hav), (num_div_scale _ Hsd).
  cbn [format_float as_float from_option String.concat].
  rewrite !string_app_assoc. reflexivity.
Qed.

Lemma spec_counter_fields_nonempty `{Formatting} (k : string) (c : instance) :
  spec_counter_fields k c <> [].
Proof. discriminate. Qed.

Lemma append_reprs_renderable `{Formatting} (d : gmap string instance)
    (keys ret : list string) :
  (forall k, k ∈ keys -> exists c, d !! k = Some c /\ renderable k c) ->
  ElapsedTimeStats.append_reprs d keys ret
  = Ok (ret ++ map (fun k => String.concat "&" (spec_entry_fields d k)) keys)%list.
Proof.
  revert ret. induction keys as [|k keys IH]; intros ret Hk.
  - cbn. rewrite app_nil_r. reflexivity.
  - cbn [ElapsedTimeStats.append_reprs map].
    destruct (Hk k) as (c & Hc & Hr); [left|].
    rewrite Hc, (call_repr_renderable k c Hr).
    rewrite IH by (intros k' Hk'; apply Hk; right; exact Hk').
    unfold spec_entry_fields at 2. rewrite Hc.
    rewrite <- app_assoc. reflexivity.
Qed.

Lemma sorted_keys_elem_of (d : gmap string instance) (k : string) :
  k ∈ ElapsedTimeStats.sorted_keys d <-> is_Some (d !! k).
Proof.
  unfold ElapsedTimeStats.sorted_keys.
  rewrite merge_sort_Permutation, elem_of_elements, elem_of_dom.
  reflexivity.
Qed.

Lemma sorted_keys_NoDup (d : gmap string instance) :
  NoDup (ElapsedTimeStats.sorted_keys d).
Proof.
  unfold ElapsedTimeStats.sorted_keys.
  rewrite merge_sort_Permutation. apply NoDup_elements.
Qed.

Lemma sorted_keys_sorted (d : gmap string instance) :
  StronglySorted String.le (ElapsedTimeStats.sorted_keys d).
Proof. apply StronglySorted_merge_sort; apply _. Qed.

(** C7: on a registry with a last activity whose entries are all
    renderable, [snapshot] returns the uptime and the last activity
    followed by every entry's fields, entries in ascending order of their
    names (each name once), each entry giving count, first, last, min,
    avg, max, stddev in that order under the prefix of its name, the whole
    joined by ["&"]. *)
Theorem snapshot_is_sorted_joined_fields `{Formatting}
    (now : datetime) (s : ElapsedTimeStats.t) :
  is_Some (ElapsedTimeStats.last s) ->
  (forall k c, ElapsedTimeStats.counters s !! k = Some c -> renderable k c) ->
  let keys := ElapsedTimeStats.sorted_keys (ElapsedTimeStats.counters s) in
  StronglySorted String.le keys /\ NoDup keys /\
  (forall k, k ∈ keys <-> is_Some (ElapsedTimeStats.counters s !! k)) /\
  ElapsedTimeStats.repr now s = Ok (spec_snapshot now s keys).
Proof.
  intros [l Hl] Hs keys.
  split; [apply sorted_keys_sorted|].
  split; [apply sorted_keys_NoDup|].
  split; [apply sorted_keys_elem_of|].
  unfold ElapsedTimeStats.repr, spec_snapshot. rewrite Hl.
  fold keys. cbn [from_option].
  assert (Hk : forall k, k ∈ keys ->
            exists c, ElapsedTimeStats.counters s !! k = Some c /\ renderable k c).
  { intros k Hk. apply sorted_keys_elem_of in Hk as [c Hc].
    exists c. split; [exact Hc | exact (Hs k c Hc)]. }
  rewrite (append_reprs_renderable _ keys _ Hk).
  f_equal.
  rewrite flat_map_concat_map.
  rewrite <- concat_segments.
  - rewrite map_map. reflexivity.
  - discriminate.
  - apply Forall_map, Forall_forall. intros k Hk'.
    destruct (Hk k Hk') as (c & Hc & _).
    unfold spec_entry_fields. rewrite Hc. discriminate.
Qed.

Lemma foo_registry_counters :
  ElapsedTimeStats.counters foo_registry
  = <["bar" := bar_counter]> {[ "foo" := foo_counter ]}.
Proof. vm_compute. reflexivity. Qed.

Lemma foo_counter_renderable : renderable "foo" foo_counter.
Proof.
  unfold renderable.
  split; [reflexivity|]. split; [reflexivity|]. split; [reflexivity|].
  split; [reflexivity|]. split; [reflexivity|].
  split; [eexists; reflexivity|]. split; [eexists; reflexivity|].
  repeat split; vm_compute; reflexivity.
Qed.

Lemma bar_counter_renderable : renderable "bar" bar_counter.
Proof.
  unfold renderable.
  split; [reflexivity|]. split; [reflexivity|]. split; [reflexivity|].
  split; [reflexivity|]. split; [reflexivity|].
  split; [eexists; reflexivity|]. split; [eexists; reflexivity|].
  repeat split; vm_compute; reflexivity.
Qed.

Lemma snapshot_witness :
  ElapsedTimeStats.sorted_keys (ElapsedTimeStats.counters foo_registry)
  = ["bar"; "foo"] /\
  ElapsedTimeStats.repr 100 foo_registry
  = Ok ("uptime=100&last=21" ++
        "&bar_count=1&bar_first=20&bar_last=20" ++
        "&bar_min=7828481131468567p-57&bar_avg=7828481131468567p-57" ++
        "&bar_max=7828481131468567p-57&bar_stddev=0" ++
        "&foo_count=1&foo_first=10&foo_last=10" ++
        "&foo_min=7116407987185763p-59&foo_avg=7116407987185763p-59" ++
        "&foo_max=7116407987185763p-59&foo_stddev=0")%string.
Proof.
  assert (H1 : is_Some (ElapsedTimeStats.last foo_registry))
    by (eexists; reflexivity).
  assert (H2 : forall k c, ElapsedTimeStats.counters foo_registry !! k = Some c ->
                           renderable k c).
  { intros k c. rewrite foo_registry_counters.
    intros [[<- <-]|[_ [<- <-]%lookup_singleton_Some]]%lookup_insert_Some.
    - apply bar_counter_renderable.
    - apply foo_counter_renderable. }
  destruct (snapshot_is_sorted_joined_fields 100 foo_registry H1 H2)
    as (_ & _ & _ & E).
  split; [vm_compute; reflexivity|].
  rewrite E. vm_compute. reflexivity.
Defined.

(** ** Samples of moderate size *)

Lemma sample_limit_nonneg : 0 <= sample_limit.
Proof. vm_compute. discriminate. Qed.

Lemma sample_limit_float : 4 * sample_limit * sample_limit < float_limit.
Proof. vm_compute. reflexivity. Qed.

Lemma small_sample_int (z : Z) : small_sample (PyInt z) = true -> small z.
Proof. apply Z.leb_le. Qed.

Lemma small_convertible (z : Z) : small z -> convertible (PyInt z).
Proof.
  unfold small, convertible. intros Hz.
  pose proof sample_limit_nonneg. pose proof sample_limit_float. nia.
Qed.

(** The increment of the accumulator is at most the square of the
    distance between two samples. *)
Lemma welford_increment_bound (z a c B : Z) :
  0 < c -> Z.abs z <= B -> Z.abs a <= B ->
  (z - a) * (z - (a + (z - a) / c)) <= 4 * B * B.
Proof.
  intros Hc Hz Ha.
  replace (z - (a + (z - a) / c)) with ((z - a) - (z - a) / c) by lia.
  pose proof (floor_div_between (z - a) c Hc) as [[H1 H2]|[H1 H2]]; nia.
Qed.

Lemma bounded_set_stddev (f : float) (o : instance) :
  bounded o -> bounded (set_stddev (PyFloat f) o).
Proof.
  intros (Hc & Hb & _). split; [exact Hc|]. split; [exact Hb|].
  right. exists f. reflexivity.
Qed.

Lemma StdDevCounter_accumulated_bounded (z : Z) (t : datetime) (o : instance) :
  bounded o -> small z -> bounded (StdDevCounter_accumulated z t o).
Proof.
  intros (Hc & (mn & mx & a & m & Hmn & Hmx & Ha & Hm & Smn & Smx & Sa & Hm0) & Hsd) Hz.
  unfold small in *.
  unfold bounded, StdDevCounter_accumulated, MinMaxAvgCounter_next,
    MinMaxAvgCounter_counted.
  rewrite Ha, Hm, Hmn, Hmx.
  cbn [int_of set_avg set_mean2
       cls name _prefix first last count max min avg _scale _precision
       _mean2 stddev].
  split; [lia|]. split; [|exact Hsd].
  pose proof (avg_next_between z a (count o + 1) ltac:(lia)) as Hav.
  pose proof (welford_increment_nonneg z a (count o + 1) ltac:(lia)) as H0.
  pose proof (welford_increment_bound z a (count o + 1) sample_limit
                ltac:(lia) Hz Sa) as H1.
  exists (if py_lt (PyInt z) (PyInt mn) || py_eq (PyInt 0) (PyInt mn)
          then z else mn),
         (if py_gt (PyInt z) (PyInt mx) then z else mx),
         (a + (z - a) / (count o + 1)),
         (m + (z - a) * (z - (a + (z - a) / (count o + 1)))).
  split; [destruct (py_lt _ _ || py_eq _ _); reflexivity|].
  split; [destruct (py_gt _ _); reflexivity|].
  split; [reflexivity|]. split; [reflexivity|].
  split; [unfold small; destruct (py_lt _ _ || py_eq _ _); assumption|].
  split; [unfold small; destruct (py_gt _ _); assumption|].
  split; [unfold small; lia|]. nia.
Qed.

(** On a bounded counter [StdDevCounter.record] of an [int] of moderate
    size returns, and the counter stays bounded. *)
Lemma StdDevCounter_record_small (z : Z) (t : datetime) (o : instance) :
  bounded o -> small z ->
  StdDevCounter.record (PyInt z) t o = (Ok tt, StdDevCounter_next z t o) /\
  bounded (StdDevCounter_next z t o).
Proof.
  intros Ho Hz.
  pose proof (StdDevCounter_accumulated_bounded z t o Ho Hz) as H2.
  destruct Ho as (Hc & (mn & mx & a & m & _ & _ & Ha & Hm & _) & _).
  rewrite (StdDevCounter_record_int z t o a m Ha Hm) by lia.
  cbv zeta. unfold StdDevCounter_next.
  assert (Hk : count (StdDevCounter_accumulated z t o) = count o + 1)
    by reflexivity.
  destruct (2 <? count (StdDevCounter_accumulated z t o)) eqn:E;
    [|split; [reflexivity | exact H2]].
  pose proof H2 as (_ & (mn2 & mx2 & a2 & m2 & _ & _ & _ & Hm2 & _ & _ & _ & Hb) & _).
  rewrite Hm2. cbn [int_of].
  rewrite math_sqrt_int.
  - split; [reflexivity | apply bounded_set_stddev, H2].
  - pose proof sample_limit_float.
    split; [apply Z.div_pos; lia|].
    apply Z.le_lt_trans with (4 * sample_limit * sample_limit); [|assumption].
    apply Z.div_le_upper_bound; lia.
Qed.

(** ** Sessions on a registry *)

Lemma run_call_as_record_delta (c : call) (s : ElapsedTimeStats.t) :
  run_call c s =
  ElapsedTimeStats.record_delta (call_name c)
    (ElapsedTimeStats.Value (call_value c)) (call_t_record c) (call_t_last c) s.
Proof. destruct c as [nm [v|td] t1 t2|nm start t0 t1 t2]; reflexivity. Qed.

Lemma spec_prefix_init (k : string) :
  _prefix (MicrosecondCounter.init k 3) = spec_prefix k.
Proof.
  cbn. unfold spec_prefix. destruct (String.eqb_spec k ""); [|reflexivity].
  subst k. reflexivity.
Qed.

Lemma MicrosecondCounter_init_kept (k : string) :
  kept k (MicrosecondCounter.init k 3).
Proof.
  pose proof sample_limit_nonneg as HB.
  split; [reflexivity|]. split; [reflexivity|].
  split; [apply spec_prefix_init|]. split; [reflexivity|].
  split; [reflexivity|].
  split; [|split; [reflexivity | cbn [count MicrosecondCounter.init StdDevCounter.init MinMaxAvgCounter.init Counter.init]; lia]].
  split; [cbn [count MicrosecondCounter.init StdDevCounter.init MinMaxAvgCounter.init Counter.init]; lia|].
  split; [|left; reflexivity].
  exists 0, 0, 0, 0. unfold small.
  cbn [count MicrosecondCounter.init StdDevCounter.init MinMaxAvgCounter.init Counter.init].
  repeat split; try reflexivity; lia.
Qed.

Lemma getitem_kept (nm : string) (s : ElapsedTimeStats.t) :
  all_kept s ->
  kept nm (fst (ElapsedTimeStats.getitem nm (ElapsedTimeStats.counters s))).
Proof.
  intros Hs. unfold ElapsedTimeStats.getitem.
  destruct (ElapsedTimeStats.counters s !! nm) as [c|] eqn:E; cbn [fst].
  - exact (Hs nm c E).
  - apply MicrosecondCounter_init_kept.
Qed.

Lemma getitem_insert (nm : string) (x : instance) (d : gmap string instance) :
  <[nm := x]> (snd (ElapsedTimeStats.getitem nm d)) = <[nm := x]> d.
Proof.
  unfold ElapsedTimeStats.getitem, ElapsedTimeStats.ddict_missing.
  destruct (d !! nm); cbn [snd]; [reflexivity|].
  apply insert_insert_eq.
Qed.

(** What a call of a moderate session does to the registry: it returns
    exactly when it carries a number, and then stores the clock reading;
    in both cases the entry of its name is the only one written. *)
Lemma run_call_kept (c : call) (s : ElapsedTimeStats.t) :
  all_kept s -> small_call c ->
  run_call c s =
  (if carries_number c then Ok tt else Raise TypeError,
   {| ElapsedTimeStats.started := ElapsedTimeStats.started s;
      ElapsedTimeStats.last :=
        if carries_number c then Some (call_t_last c)
        else ElapsedTimeStats.last s;
      ElapsedTimeStats.counters :=
        <[call_name c := entry_after c s]> (ElapsedTimeStats.counters s) |}).
Proof.
  intros Hs Hsmall. rewrite run_call_as_record_delta.
  pose proof (getitem_kept (call_name c) s Hs) as Hk.
  unfold ElapsedTimeStats.record_delta, entry_after, carries_number.
  rewrite <- (getitem_insert (call_name c) _ (ElapsedTimeStats.counters s)).
  destruct (ElapsedTimeStats.getitem (call_name c) (ElapsedTimeStats.counters s))
    as [e d]. cbn [fst snd] in *.
  destruct Hk as (Hcls & _ & _ & _ & _ & Hb & _).
  unfold call_record. rewrite Hcls.
  unfold small_call in Hsmall.
  destruct (call_value c) as [[z|f]| |].
  - apply small_sample_int in Hsmall.
    rewrite (proj1 (StdDevCounter_record_small z (call_t_record c) e Hb Hsmall)).
    reflexivity.
  - discriminate Hsmall.
  - rewrite StdDevCounter_record_not_num by (intros n; discriminate).
    reflexivity.
  - rewrite StdDevCounter_record_not_num by (intros n; discriminate).
    reflexivity.
Qed.

Lemma entry_after_kept (c : call) (s : ElapsedTimeStats.t) :
  all_kept s -> small_call c -> kept (call_name c) (entry_after c s).
Proof.
  intros Hs Hsmall. pose proof (getitem_kept (call_name c) s Hs) as Hk.
  unfold entry_after. unfold small_call in Hsmall.
  destruct (call_value c) as [[z|f]| |]; [|discriminate Hsmall|exact Hk..].
  apply small_sample_int in Hsmall.
  set (e := fst (ElapsedTimeStats.getitem (call_name c) (ElapsedTimeStats.counters s))) in *.
  destruct Hk as (H1 & H2 & H3 & H4 & H5 & Hb & _ & _).
  pose proof (proj2 (StdDevCounter_record_small z (call_t_record c) e Hb Hsmall))
    as Hb'.
  assert (Hc : 0 <= count e) by apply Hb.
  assert (Hid : forall o, cls (StdDevCounter_next z (call_t_record c) o) = cls o /\
                  name (StdDevCounter_next z (call_t_record c) o) = name o /\
                  _prefix (StdDevCounter_next z (call_t_record c) o) = _prefix o /\
                  _scale (StdDevCounter_next z (call_t_record c) o) = _scale o /\
                  _precision (StdDevCounter_next z (call_t_record c) o) = _precision o /\
                  count (StdDevCounter_next z (call_t_record c) o) = count o + 1 /\
                  is_Some (first (StdDevCounter_next z (call_t_record c) o)) /\
                  is_Some (last (StdDevCounter_next z (call_t_record c) o))).
  { intros o. unfold StdDevCounter_next.
    destruct (2 <? count (StdDevCounter_accumulated z (call_t_record c) o));
      (repeat split; try reflexivity;
       cbn [first last StdDevCounter_accumulated MinMaxAvgCounter_next
            MinMaxAvgCounter_counted set_avg set_mean2 set_stddev];
       [destruct (first o); eauto | eauto]). }
  destruct (Hid e) as (I1 & I2 & I3 & I4 & I4' & I5 & I6 & I7).
  split; [congruence|]. split; [congruence|]. split; [congruence|].
  split; [congruence|]. split; [congruence|]. split; [exact Hb'|].
  split; [intros H0; lia | auto].
Qed.

Lemma run_call_all_kept (c : call) (s : ElapsedTimeStats.t) :
  all_kept s -> small_call c -> all_kept (snd (run_call c s)).
Proof.
  intros Hs Hsmall. rewrite (run_call_kept c s Hs Hsmall). cbn [snd].
  intros k e Hk. cbn [ElapsedTimeStats.counters] in Hk.
  destruct (decide (k = call_name c)) as [->|Hne].
  - rewrite lookup_insert_eq in Hk. inversion Hk; subst e.
    apply entry_after_kept; assumption.
  - rewrite lookup_insert_ne in Hk by congruence. exact (Hs k e Hk).
Qed.

Lemma run_calls_all_kept (cs : list call) (s : ElapsedTimeStats.t) :
  all_kept s -> Forall small_call cs -> all_kept (run_calls cs s).
Proof.
  intros Hs Hcs. revert s Hs.
  induction Hcs as [|c cs Hc Hcs IH]; intros s Hs; cbn [run_calls].
  - exact Hs.
  - apply IH, run_call_all_kept; assumption.
Qed.

Lemma init_all_kept (t0 : datetime) : all_kept (ElapsedTimeStats.init t0).
Proof. intros k c Hk. cbn in Hk. rewrite lookup_empty in Hk. discriminate. Qed.


Lemma run_calls_lookup_is_Some (cs : list call) (s : ElapsedTimeStats.t) (k : string) :
  is_Some (ElapsedTimeStats.counters (run_calls cs s) !! k) <->
  is_Some (ElapsedTimeStats.counters s !! k) \/ In k (map call_name cs).
Proof.
  revert s. induction cs as [|c cs IH]; intros s; cbn [run_calls map In].
  - tauto.
  - rewrite IH, run_call_as_record_delta, record_delta_counters. cbv zeta.
    rewrite getitem_insert.
    destruct (decide (call_name c = k)) as [->|Hne].
    + rewrite lookup_insert_eq. split; [auto|]. intros _. left. eauto.
    + rewrite lookup_insert_ne by exact Hne. tauto.
Qed.


Lemma entry_count_getitem (nm : string) (s : ElapsedTimeStats.t) :
  count (fst (ElapsedTimeStats.getitem nm (ElapsedTimeStats.counters s)))
  = entry_count s nm.
Proof.
  unfold entry_count, ElapsedTimeStats.getitem.
  destruct (ElapsedTimeStats.counters s !! nm); reflexivity.
Qed.

Lemma run_call_entry_count (c : call) (s : ElapsedTimeStats.t) (nm : string) :
  all_kept s -> small_call c ->
  entry_count (snd (run_call c s)) nm
  = entry_count s nm + (if recorded_for nm c then 1 else 0).
Proof.
  intros Hs Hsmall. rewrite (run_call_kept c s Hs Hsmall). cbn [snd].
  unfold entry_count at 1. cbn [ElapsedTimeStats.counters].
  unfold recorded_for.
  destruct (String.eqb_spec (call_name c) nm) as [E|E].
  - subst nm. rewrite lookup_insert_eq. cbn [andb].
    unfold entry_after, carries_number. unfold small_call in Hsmall.
    destruct (call_value c) as [[z|f]| |];
      [unfold StdDevCounter_next;
       destruct (2 <? count (StdDevCounter_accumulated z _ _));
       cbn [count StdDevCounter_accumulated MinMaxAvgCounter_next
            MinMaxAvgCounter_counted set_avg set_stddev set_mean2]
      |discriminate Hsmall| |];
      rewrite entry_count_getitem; lia.
  - rewrite lookup_insert_ne by exact E. cbn [andb]. unfold entry_count. lia.
Qed.

Lemma run_calls_entry_count (cs : list call) (s : ElapsedTimeStats.t) (nm : string) :
  all_kept s -> Forall small_call cs ->
  entry_count (run_calls cs s) nm
  = entry_count s nm + Z.of_nat (length (List.filter (recorded_for nm) cs)).
Proof.
  intros Hs Hcs. revert s Hs.
  induction Hcs as [|c cs Hc Hcs IH]; intros s Hs; cbn [run_calls List.filter].
  - cbn. lia.
  - rewrite IH by (apply run_call_all_kept; assumption).
    rewrite run_call_entry_count by assumption.
    destruct (recorded_for nm c); cbn [length]; lia.
Qed.

(** X12: in a session whose samples are [int]s of moderate size, strings
    or [None], the count of the entry of a name is the number of calls for
    that name that carried a number (a raw [int] or a [timedelta]); the
    other calls raised at the first statement of [record] and are not
    counted. *)
Theorem registry_entry_counts_recorded_calls
    (cs : list call) (t0 : datetime) (nm : string) (c : instance) :
  Forall small_call cs ->
  ElapsedTimeStats.counters (run_calls cs (ElapsedTimeStats.init t0)) !! nm = Some c ->
  count c = Z.of_nat (length (List.filter (recorded_for nm) cs)).
Proof.
  intros Hcs Hc.
  pose proof (run_calls_entry_count cs (ElapsedTimeStats.init t0) nm
                (init_all_kept t0) Hcs) as H.
  unfold entry_count in H. rewrite Hc in H.
  cbn [ElapsedTimeStats.counters ElapsedTimeStats.init] in H.
  rewrite lookup_empty in H. lia.
Qed.

Lemma foo_calls_small : Forall small_call foo_calls.
Proof. repeat constructor. Qed.

Lemma registry_entry_counts_witness :
  count foo_counter = 1.
Proof.
  exact (registry_entry_counts_recorded_calls foo_calls 0 "foo" foo_counter
           foo_calls_small ltac:(vm_compute; reflexivity)).
Defined.

Lemma run_calls_last (cs : list call) (s : ElapsedTimeStats.t) :
  all_kept s -> Forall small_call cs ->
  ElapsedTimeStats.last (run_calls cs s)
  = match list.last (List.filter carries_number cs) with
    | Some c => Some (call_t_last c)
    | None => ElapsedTimeStats.last s
    end.
Proof.
  intros Hs Hcs. revert s Hs.
  induction Hcs as [|c cs Hc Hcs IH]; intros s Hs; cbn [run_calls List.filter].
  - reflexivity.
  - rewrite IH by (apply run_call_all_kept; assumption).
    rewrite (run_call_kept c s Hs Hc). cbn [snd ElapsedTimeStats.last].
    destruct (carries_number c); [|reflexivity].
    destruct (List.filter carries_number cs) as [|c' l]; [reflexivity|].
    rewrite last_cons_cons.
    destruct (list.last (c' :: l)) eqn:E; [reflexivity|].
    apply last_None in E. discriminate.
Qed.



(** ** When the snapshot returns *)



Lemma kept_renderable (k : string) (c : instance) :
  kept k c -> 0 < count c -> renderable k c.
Proof.
  intros (H1 & H2 & H3 & H4 & H5 & Hb & _ & Hfl) Hc.
  destruct (Hfl Hc) as [Hf Hl].
  destruct Hb as (_ & (mn & mx & a & m & Hmn & Hmx & Ha & _ & Smn & Smx & Sa & _) & Hsd).
  unfold renderable. rewrite Hmn, Hmx, Ha.
  split; [assumption|]. split; [assumption|]. split; [assumption|].
  split; [assumption|]. split; [assumption|].
  split; [assumption|]. split; [assumption|].
  split; [apply small_convertible, Smn|].
  split; [apply small_convertible, Sa|].
  split; [apply small_convertible, Smx|].
  destruct Hsd as [->|[f ->]]; [|exact I].
  apply small_convertible. unfold small. pose proof sample_limit_nonneg. lia.
Qed.



(** ** Registries whose calls all returned *)

Lemma all_returned_carry (cs : list call) (s : ElapsedTimeStats.t) :
  all_kept s -> Forall small_call cs -> all_returned cs s ->
  Forall (fun c => carries_number c = true) cs.
Proof.
  intros Hs Hcs. revert s Hs.
  induction Hcs as [|c cs Hc Hcs IH]; intros s Hs Hall; [constructor|].
  destruct Hall as [Hr Hall].
  constructor.
  - rewrite (run_call_kept c s Hs Hc) in Hr. cbn [fst] in Hr.
    destruct (carries_number c); [reflexivity | discriminate].
  - apply (IH (snd (run_call c s))); [apply run_call_all_kept; assumption | exact Hall].
Qed.

(** After calls that all returned, at least one of them, in a session
    whose samples are [int]s of moderate size, the registry has a last
    activity and all its entries are renderable. *)
Lemma run_calls_returned_renderable (cs : list call) (t0 : datetime) :
  cs <> [] -> Forall small_call cs ->
  all_returned cs (ElapsedTimeStats.init t0) ->
  let s := run_calls cs (ElapsedTimeStats.init t0) in
  is_Some (ElapsedTimeStats.last s) /\
  (forall k c, ElapsedTimeStats.counters s !! k = Some c -> renderable k c).
Proof.
  intros Hne Hsmall Hall.
  pose proof (all_returned_carry cs _ (init_all_kept t0) Hsmall Hall) as Hcarry.
  assert (Hf : forall (P : call -> bool) l,
            Forall (fun c => carries_number c = true) l ->
            (forall c, P c = true -> carries_number c = true) ->
            List.filter carries_number l = l).
  { intros P l Hl _. induction Hl as [|c l Hc Hl IH]; [reflexivity|].
    cbn [List.filter]. rewrite Hc, IH. reflexivity. }
  cbv zeta. split.
  - rewrite run_calls_last by (apply init_all_kept || exact Hsmall).
    rewrite (Hf carries_number cs Hcarry (fun c H => H)).
    destruct (list.last cs) eqn:E; [eauto|].
    apply last_None in E. contradiction.
  - intros k c Hc.
    apply kept_renderable.
    + exact (run_calls_all_kept cs _ (init_all_kept t0) Hsmall k c Hc).
    + pose proof (run_calls_entry_count cs (ElapsedTimeStats.init t0) k
                    (init_all_kept t0) Hsmall) as H1.
      unfold entry_count in H1. rewrite Hc in H1.
      cbn [ElapsedTimeStats.counters ElapsedTimeStats.init] in H1.
      rewrite lookup_empty in H1.
      assert (Hk : In k (map call_name cs)).
      { destruct (proj1 (run_calls_lookup_is_Some cs (ElapsedTimeStats.init t0) k)
                    (ex_intro _ c Hc)) as [[x Hx]|Hin]; [|exact Hin].
        cbn in Hx. rewrite lookup_empty in Hx. discriminate. }
      apply in_map_iff in Hk as (c0 & Hn & Hin).
      assert (Hrec : In c0 (List.filter (recorded_for k) cs)).
      { apply filter_In. split; [exact Hin|].
        unfold recorded_for. rewrite Hn, String.eqb_refl. cbn [andb].
        rewrite List.Forall_forall in Hcarry. apply Hcarry. exact Hin. }
      destruct (List.filter (recorded_for k) cs); [destruct Hrec|].
      cbn [length] in H1. lia.
Qed.

(** * Further properties of the code *)

(** ** The life of a plain [Counter] *)

Lemma last_cons_default {A : Type} (x d : A) (l : list A) :
  List.last (x :: l) d = List.last l x.
Proof.
  revert x d. induction l as [|y l IH]; intros x d; [reflexivity|].
  change (List.last (x :: y :: l) d) with (List.last (y :: l) d).
  rewrite (IH y d), (IH y x). reflexivity.
Qed.

Lemma Counter_record_all_state (times : list datetime) (o : instance) :
  let r := Counter_record_all times o in
  fst r = Ok tt /\
  count (snd r) = count o + Z.of_nat (length times) /\
  first (snd r) = match first o with
                  | Some f => Some f
                  | None => List.head times
                  end /\
  last (snd r) = match times with
                 | [] => last o
                 | t :: rest => Some (List.last rest t)
                 end /\
  _prefix (snd r) = _prefix o.
Proof.
  revert o. induction times as [|t rest IH]; intros o; cbv zeta.
  - cbn. repeat split; try lia. destruct (first o); reflexivity.
  - cbn [Counter_record_all]. unfold bind.
    rewrite Counter_record_closed.
    destruct (IH {| cls := cls o; name := name o; _prefix := _prefix o;
                    first := match first o with None => Some t | Some f => Some f end;
                    last := Some t; count := count o + 1;
                    max := max o; min := min o; avg := avg o;
                    _scale := _scale o; _precision := _precision o;
                    _mean2 := _mean2 o; stddev := stddev o |})
      as (H1 & H2 & H3 & H4 & H5).
    cbn [count first last _prefix] in H2, H3, H4, H5.
    split; [exact H1|]. split; [rewrite H2; cbn [length]; lia|].
    split; [rewrite H3; destruct (first o); reflexivity|].
    split; [|exact H5].
    rewrite H4. destruct rest as [|d rest]; [reflexivity|].
    rewrite last_cons_default. reflexivity.
Qed.

(** X1: a new [Counter] on which [record] was called at the clock readings
    [t1 :: rest] has counted the calls, has the first reading in [first],
    the last one in [last], and renders as count, first, last under the
    prefix of its name. *)
Theorem Counter_life `{Formatting} (nm : string) (t1 : datetime)
    (rest : list datetime) :
  let r := Counter_record_all (t1 :: rest) (Counter.init nm) in
  fst r = Ok tt /\
  count (snd r) = Z.of_nat (length (t1 :: rest)) /\
  first (snd r) = Some t1 /\
  last (snd r) = Some (List.last rest t1) /\
  Counter.repr (snd r)
  = Ok (spec_prefix nm ++ "count=" ++ format_d (Z.of_nat (length (t1 :: rest)))
        ++ "&" ++ spec_prefix nm ++ "first=" ++ isoformat t1
        ++ "&" ++ spec_prefix nm ++ "last=" ++ isoformat (List.last rest t1))%string.
Proof.
  destruct (Counter_record_all_state (t1 :: rest) (Counter.init nm))
    as (H1 & H2 & H3 & H4 & H5).
  cbn [count first last _prefix Counter.init List.head] in H2, H3, H4, H5.
  cbv zeta. split; [exact H1|]. split; [exact H2|].
  split; [exact H3|]. split; [exact H4|].
  unfold Counter.repr. rewrite H3, H4, H5, H2.
  assert (Hp : (nm ++ (if String.eqb nm "" then "" else "_"))%string = spec_prefix nm).
  { unfold spec_prefix. destruct (String.eqb_spec nm ""); [|reflexivity].
    subst nm. reflexivity. }
  rewrite Hp. reflexivity.
Qed.

(** ** Calls of [MinMaxAvgCounter.record] that raise *)

(** X2: [MinMaxAvgCounter.record] counts every call, whether it returns
    or raises: afterwards count is one more, last is the clock reading of
    the call and first is the reading of the first call ever. *)
Theorem MinMaxAvgCounter_record_counts_every_call
    (v : pyval) (t : datetime) (o : instance) :
  let o' := snd (MinMaxAvgCounter.record v t o) in
  count o' = count o + 1 /\
  last o' = Some t /\
  first o' = match first o with None => Some t | Some f => Some f end.
Proof.
  destruct (MinMaxAvgCounter_record_always v t o) as (H1 & H2 & H3 & _).
  cbv zeta. auto.
Qed.

Lemma MinMaxAvgCounter_record_keeps_string_max (v : pyval) (t : datetime)
    (o : instance) (s : string) :
  max o = PStr s ->
  exists s', max (snd (MinMaxAvgCounter.record v t o)) = PStr s'.
Proof.
  intros Hs.
  destruct (MinMaxAvgCounter_record_always v t o) as (_ & _ & _ & H & _).
  cbv zeta in H. rewrite H, Hs.
  destruct v as [n|s2|]; unfold py_gt; cbn [py_lt].
  - eauto.
  - destruct (String.ltb s s2); eauto.
  - eauto.
Qed.

Lemma record_all_keeps_string_max (samples : list (pyval * datetime))
    (o : instance) (s : string) :
  max o = PStr s ->
  exists s', max (snd (record_all MinMaxAvgCounter.record samples o)) = PStr s'.
Proof.
  revert o s. induction samples as [|[v t] rest IH]; intros o s Hs.
  - cbn. eauto.
  - cbn [record_all]. unfold bind.
    destruct (MinMaxAvgCounter_record_keeps_string_max v t o s Hs) as [s' Hs'].
    destruct (MinMaxAvgCounter.record v t o) as [[[]|e] o1]; cbn [snd] in *.
    + eapply IH, Hs'.
    + eauto.
Qed.

Lemma MinMaxAvgCounter_repr_string_max `{Formatting} (o : instance) (s : string) :
  max o = PStr s -> exists e, MinMaxAvgCounter.repr o = Raise e.
Proof.
  intros Hs. unfold MinMaxAvgCounter.repr.
  destruct (Counter.repr o); [|eauto].
  destruct (py_div (min o) (_scale o)); [|eauto].
  destruct (num_div (avg o) (_scale o)); [|eauto].
  rewrite Hs. cbn [py_div]. eauto.
Qed.

(** X3: once [record] was called with a string on a new
    [MinMaxAvgCounter] (the call raises), the counter never renders again:
    whatever is recorded afterwards, max stays a string and [__repr__]
    raises. *)
Theorem MinMaxAvgCounter_string_sample_poisons_repr `{Formatting}
    (nm : string) (scale : num) (precision : Z) (s : string) (t : datetime)
    (samples : list (pyval * datetime)) :
  let o1 := snd (MinMaxAvgCounter.record (PStr s) t
                   (MinMaxAvgCounter.init nm scale precision)) in
  let o2 := snd (record_all MinMaxAvgCounter.record samples o1) in
  fst (MinMaxAvgCounter.record (PStr s) t
         (MinMaxAvgCounter.init nm scale precision)) = Raise TypeError /\
  (exists s', max o2 = PStr s') /\
  (exists e, MinMaxAvgCounter.repr o2 = Raise e).
Proof.
  cbv zeta. split; [reflexivity|].
  assert (H1 : max (snd (MinMaxAvgCounter.record (PStr s) t
                           (MinMaxAvgCounter.init nm scale precision))) = PStr s)
    by reflexivity.
  destruct (record_all_keeps_string_max samples _ s H1) as [s' Hs'].
  split; [eauto|].
  eapply MinMaxAvgCounter_repr_string_max, Hs'.
Qed.

(** ** Runs that return *)

Lemma record_all_cons (rec : pyval -> datetime -> M unit) (v : pyval)
    (t : datetime) (rest : list (pyval * datetime)) (o o' : instance) :
  rec v t o = (Ok tt, o') ->
  record_all rec ((v, t) :: rest) o = record_all rec rest o'.
Proof. intros H. cbn [record_all]. unfold bind. rewrite H. reflexivity. Qed.


(** ** What min, max and avg hold after any [int]s *)

(** Invariants of a run of [MinMaxAvgCounter.record] on [int]s: [xs] are
    the integers recorded so far. *)
Lemma record_all_ints_invariant (Q : Z -> Prop)
    (P : instance -> list Z -> Prop) (samples : list (pyval * datetime)) :
  (forall o xs z t a,
     count o = Z.of_nat (length xs) -> avg o = PyInt a -> Q z -> P o xs ->
     P (MinMaxAvgCounter_next z t o) (xs ++ [z])%list) ->
  Forall (fun s => exists z, fst s = PNum (PyInt z) /\ Q z) samples ->
  forall o xs,
    count o = Z.of_nat (length xs) -> (exists a, avg o = PyInt a) -> P o xs ->
    let r := record_all MinMaxAvgCounter.record samples o in
    fst r = Ok tt /\
    count (snd r) = Z.of_nat (length (xs ++ sample_ints samples)%list) /\
    (exists a, avg (snd r) = PyInt a) /\
    P (snd r) (xs ++ sample_ints samples)%list.
Proof.
  intros Hstep Hall.
  induction Hall as [|[v t] rest (z & Hv & Hz) Hrest IH]; intros o xs Hc [a Ha] HP.
  - cbn. rewrite app_nil_r. eauto.
  - cbn [fst] in Hv. subst v.
    rewrite (record_all_cons _ _ _ _ _ _
               (MinMaxAvgCounter_record_int z t o a Ha ltac:(lia))).
    cbn [sample_ints map fst sample_int]. fold (sample_ints rest).
    replace (xs ++ z :: sample_ints rest)%list
      with ((xs ++ [z]) ++ sample_ints rest)%list
      by (rewrite <- app_assoc; reflexivity).
    apply IH.
    + rewrite length_app, Nat2Z.inj_add, <- Hc. reflexivity.
    + eexists. reflexivity.
    + eapply Hstep; eassumption.
Qed.

Lemma is_int_any (samples : list (pyval * datetime)) :
  Forall (fun s => is_int (fst s)) samples ->
  Forall (fun s => exists z, fst s = PNum (PyInt z) /\ True) samples.
Proof.
  intros H. eapply Forall_impl; [exact H|]. intros s [z Hz]. eauto.
Qed.

Lemma Zlist_min_snoc (x y : Z) (xs : list Z) :
  Zlist_min ((x :: xs) ++ [y])%list = Z.min (Zlist_min (x :: xs)) y.
Proof. cbn [Zlist_min app]. rewrite fold_left_app. reflexivity. Qed.

Lemma Zlist_max_snoc (x y : Z) (xs : list Z) :
  Zlist_max ((x :: xs) ++ [y])%list = Z.max (Zlist_max (x :: xs)) y.
Proof. cbn [Zlist_max app]. rewrite fold_left_app. reflexivity. Qed.

Lemma MinMaxAvgCounter_next_max (z : Z) (t : datetime) (o : instance) (m : Z) :
  max o = PyInt m -> max (MinMaxAvgCounter_next z t o) = PyInt (Z.max m z).
Proof.
  intros Hm. cbn [max MinMaxAvgCounter_next MinMaxAvgCounter_counted set_avg].
  rewrite Hm. unfold py_gt. cbn [py_lt num_lt].
  destruct (Z.ltb_spec m z); do 2 f_equal; lia.
Qed.

Lemma MinMaxAvgCounter_next_min (z : Z) (t : datetime) (o : instance) (m : Z) :
  min o = PyInt m ->
  min (MinMaxAvgCounter_next z t o)
  = PyInt (if 0 =? m then z else Z.min m z).
Proof.
  intros Hm. cbn [min MinMaxAvgCounter_next MinMaxAvgCounter_counted set_avg].
  rewrite Hm. cbn [py_lt py_eq num_lt num_eq].
  destruct (0 =? m); [rewrite orb_true_r; reflexivity|].
  rewrite orb_false_r.
  destruct (Z.ltb_spec z m); do 2 f_equal; lia.
Qed.

Lemma MinMaxAvgCounter_next_avg (z : Z) (t : datetime) (o : instance) (a : Z) :
  avg o = PyInt a ->
  avg (MinMaxAvgCounter_next z t o) = PyInt (a + (z - a) / (count o + 1)).
Proof.
  intros Ha. cbn [avg MinMaxAvgCounter_next set_avg]. rewrite Ha. reflexivity.
Qed.

(** Whatever the [int]s recorded, a new [MinMaxAvgCounter] returns from
    every [record] and counts the samples. *)
Lemma MinMaxAvgCounter_counts_samples
    (samples : list (pyval * datetime)) (nm : string) (scale : num) (precision : Z) :
  Forall (fun s => is_int (fst s)) samples ->
  let r := record_all MinMaxAvgCounter.record samples
             (MinMaxAvgCounter.init nm scale precision) in
  fst r = Ok tt /\ count (snd r) = Z.of_nat (length samples).
Proof.
  intros Hall.
  destruct (record_all_ints_invariant (fun _ => True) (fun _ _ => True)
              samples (fun _ _ _ _ _ _ _ _ _ => I) (is_int_any samples Hall)
              (MinMaxAvgCounter.init nm scale precision) []
              eq_refl (ex_intro _ 0 eq_refl) I) as (H1 & H2 & _).
  cbv zeta. split; [exact H1|]. rewrite H2.
  cbn [app]. unfold sample_ints. rewrite length_map. reflexivity.
Qed.

(** X4: after any [int]s, of either sign and of any size, max holds the
    largest of 0 and the integers recorded: the initial 0 takes part in
    the comparison. *)
Theorem MinMaxAvgCounter_max_is_largest_of_zero_and_samples
    (samples : list (pyval * datetime)) (nm : string) (scale : num) (precision : Z) :
  Forall (fun s => is_int (fst s)) samples ->
  let r := record_all MinMaxAvgCounter.record samples
             (MinMaxAvgCounter.init nm scale precision) in
  fst r = Ok tt /\
  max (snd r) = PyInt (fold_left Z.max (sample_ints samples) 0).
Proof.
  intros Hall.
  destruct (record_all_ints_invariant (fun _ => True)
              (fun o xs => max o = PyInt (fold_left Z.max xs 0))
              samples) with (o := MinMaxAvgCounter.init nm scale precision)
                            (xs := @nil Z) as (H1 & _ & _ & H3).
  - intros o xs z t a _ _ _ Hm.
    rewrite (MinMaxAvgCounter_next_max z t o _ Hm), fold_left_app.
    reflexivity.
  - apply is_int_any, Hall.
  - reflexivity.
  - exists 0. reflexivity.
  - reflexivity.
  - cbv zeta. split; [exact H1 | exact H3].
Qed.

(** X5: after [int]s none of which is 0, of either sign and of any size,
    min holds the smallest integer recorded. *)
Theorem MinMaxAvgCounter_min_of_nonzero_samples
    (samples : list (pyval * datetime)) (nm : string) (scale : num) (precision : Z) :
  samples <> [] ->
  Forall (fun s => exists z, fst s = PNum (PyInt z) /\ z <> 0) samples ->
  let r := record_all MinMaxAvgCounter.record samples
             (MinMaxAvgCounter.init nm scale precision) in
  fst r = Ok tt /\
  min (snd r) = PyInt (Zlist_min (sample_ints samples)).
Proof.
  intros Hne Hall.
  destruct (record_all_ints_invariant (fun z => z <> 0)
              (fun o xs => match xs with
                           | [] => min o = PyInt 0
                           | _ => min o = PyInt (Zlist_min xs) /\ Zlist_min xs <> 0
                           end)
              samples) with (o := MinMaxAvgCounter.init nm scale precision)
                            (xs := @nil Z) as (H1 & _ & _ & H3).
  - intros o xs z t a _ _ Hz HP.
    destruct xs as [|x xs].
    + rewrite (MinMaxAvgCounter_next_min z t o 0 HP). cbn. auto.
    + destruct HP as [Hm Hnz].
      rewrite (MinMaxAvgCounter_next_min z t o _ Hm), Zlist_min_snoc.
      destruct (Z.eqb_spec 0 (Zlist_min (x :: xs))) as [E|E]; [congruence|].
      cbn [app]. split; [reflexivity | lia].
  - exact Hall.
  - reflexivity.
  - exists 0. reflexivity.
  - reflexivity.
  - cbv zeta. split; [exact H1|]. cbn [app] in H3.
    destruct (sample_ints samples) as [|x xs] eqn:E.
    + destruct samples; [contradiction | discriminate].
    + apply H3.
Qed.

(** X6: after any [int]s, of either sign and of any size, avg is an [int]
    between the smallest and the largest integer recorded. *)
Theorem MinMaxAvgCounter_avg_between_samples
    (samples : list (pyval * datetime)) (nm : string) (scale : num) (precision : Z) :
  samples <> [] ->
  Forall (fun s => is_int (fst s)) samples ->
  let r := record_all MinMaxAvgCounter.record samples
             (MinMaxAvgCounter.init nm scale precision) in
  fst r = Ok tt /\
  exists a, avg (snd r) = PyInt a /\
    Zlist_min (sample_ints samples) <= a <= Zlist_max (sample_ints samples).
Proof.
  intros Hne Hall.
  destruct (record_all_ints_invariant (fun _ => True)
              (fun o xs => match xs with
                           | [] => True
                           | _ => Zlist_min xs <= int_of (avg o) <= Zlist_max xs
                           end)
              samples) with (o := MinMaxAvgCounter.init nm scale precision)
                            (xs := @nil Z) as (H1 & _ & [a Ha] & H3).
  - intros o xs z t a Hc Ha _ HP.
    rewrite (MinMaxAvgCounter_next_avg z t o a Ha). cbn [int_of].
    destruct xs as [|x xs].
    + cbn [length] in Hc. rewrite Hc. cbn. rewrite Z.div_1_r. lia.
    + rewrite Ha in HP. cbn [int_of] in HP.
      rewrite Zlist_min_snoc, Zlist_max_snoc.
      pose proof (avg_next_between z a (count o + 1) ltac:(lia)).
      cbn [app]. lia.
  - apply is_int_any, Hall.
  - reflexivity.
  - exists 0. reflexivity.
  - exact I.
  - cbv zeta. split; [exact H1|]. exists a. split; [exact Ha|].
    cbn [app] in H3. rewrite Ha in H3. cbn [int_of] in H3.
    destruct (sample_ints samples) as [|x xs] eqn:E.
    + destruct samples; [contradiction | discriminate].
    + exact H3.
Qed.

(** ** What a [StdDevCounter] holds after [int] samples *)

Lemma float_limit_pos : 0 < float_limit.
Proof. vm_compute. reflexivity. Qed.

(** One more sample equal to the average of a counter whose accumulator
    is 0; on a counter with no sample yet, any sample. *)
Lemma StdDevCounter_record_constant (v : Z) (t : datetime) (o : instance) :
  0 <= count o ->
  (count o = 0 /\ avg o = PyInt 0) \/ avg o = PyInt v ->
  _mean2 o = PyInt 0 ->
  exists o',
    StdDevCounter.record (PyInt v) t o = (Ok tt, o') /\
    count o' = count o + 1 /\ avg o' = PyInt v /\ _mean2 o' = PyInt 0 /\
    stddev o' = (if 2 <? count o + 1 then PyFloat 0 else stddev o).
Proof.
  intros Hc Ha Hm.
  assert (Hacc : exists a, avg o = PyInt a /\
            a + (v - a) / (count o + 1) = v /\
            (v - a) * (v - (a + (v - a) / (count o + 1))) = 0).
  { destruct Ha as [[H0 Ha]|Ha].
    - exists 0. split; [exact Ha|]. rewrite H0. cbn [Z.add].
      rewrite Z.div_1_r. lia.
    - exists v. split; [exact Ha|]. rewrite Z.sub_diag, Z.div_0_l by lia. lia. }
  destruct Hacc as (a & Ha' & Hav & Hinc).
  rewrite (StdDevCounter_record_int v t o a 0 Ha' Hm) by lia.
  cbv zeta.
  assert (H2 : _mean2 (StdDevCounter_accumulated v t o) = PyInt 0).
  { unfold StdDevCounter_accumulated.
    cbn [_mean2 set_mean2]. rewrite (MinMaxAvgCounter_next_avg v t o a Ha').
    rewrite Ha', Hm. cbn [int_of]. rewrite Hinc. reflexivity. }
  assert (H1 : avg (StdDevCounter_accumulated v t o) = PyInt v).
  { unfold StdDevCounter_accumulated. cbn [avg set_mean2].
    rewrite (MinMaxAvgCounter_next_avg v t o a Ha'), Hav. reflexivity. }
  assert (Hk : count (StdDevCounter_accumulated v t o) = count o + 1)
    by reflexivity.
  assert (Hs : stddev (StdDevCounter_accumulated v t o) = stddev o)
    by reflexivity.
  rewrite H2, Hk. cbn [int_of]. rewrite Z.div_0_l by lia.
  destruct (2 <? count o + 1).
  - rewrite math_sqrt_int by (pose proof float_limit_pos; lia).
    eexists. split; [reflexivity|]. auto.
  - eexists. split; [reflexivity|]. auto.
Qed.

(** X7: when the same [int] [v], of any size, is recorded any number of
    times, at least once, on a new [StdDevCounter], every call returns,
    avg is [v], the accumulator is 0 and stddev is zero: the initial [int]
    0 up to the second sample, the float 0.0 from the third on. *)
Theorem StdDevCounter_constant_samples
    (v : Z) (t1 : datetime) (times : list datetime)
    (nm : string) (scale : num) (precision : Z) :
  let samples := map (fun t => (PNum (PyInt v), t)) (t1 :: times) in
  let r := record_all StdDevCounter.record samples
             (StdDevCounter.init nm scale precision) in
  fst r = Ok tt /\
  count (snd r) = Z.of_nat (length (t1 :: times)) /\
  avg (snd r) = PyInt v /\
  _mean2 (snd r) = PyInt 0 /\
  stddev (snd r)
  = (if 2 <? Z.of_nat (length (t1 :: times)) then PyFloat 0 else PyInt 0).
Proof.
  cbv zeta.
  assert (Hgen : forall ts o,
            0 <= count o ->
            (count o = 0 /\ avg o = PyInt 0) \/ avg o = PyInt v ->
            _mean2 o = PyInt 0 ->
            stddev o = (if 2 <? count o then PyFloat 0 else PyInt 0) ->
            ts <> [] ->
            let r := record_all StdDevCounter.record
                       (map (fun t => (PNum (PyInt v), t)) ts) o in
            fst r = Ok tt /\
            count (snd r) = count o + Z.of_nat (length ts) /\
            avg (snd r) = PyInt v /\ _mean2 (snd r) = PyInt 0 /\
            stddev (snd r)
            = (if 2 <? count o + Z.of_nat (length ts) then PyFloat 0 else PyInt 0)).
  { induction ts as [|t ts IH]; intros o Hc Ha Hm Hs Hne; [contradiction|].
    destruct (StdDevCounter_record_constant v t o Hc Ha Hm)
      as (o' & Hr & Hc' & Ha' & Hm' & Hs').
    cbn [map]. rewrite (record_all_cons _ _ _ _ _ _ Hr).
    assert (Hs2 : stddev o' = (if 2 <? count o' then PyFloat 0 else PyInt 0)).
    { rewrite Hs', Hc', Hs.
      destruct (Z.ltb_spec 2 (count o + 1)), (Z.ltb_spec 2 (count o));
        (reflexivity || lia). }
    destruct ts as [|t' ts].
    - cbn [map record_all ret fst snd length].
      change (Z.of_nat 1) with 1. rewrite <- Hc'. auto.
    - destruct (IH o') as (I1 & I2 & I3 & I4 & I5);
        [lia | auto | exact Hm' | exact Hs2 | discriminate |].
      cbv zeta in *.
      split; [exact I1|]. split; [rewrite I2, Hc'; cbn [length]; lia|].
      split; [exact I3|]. split; [exact I4|].
      rewrite I5, Hc'.
      replace (count o + 1 + Z.of_nat (length (t' :: ts)))
        with (count o + Z.of_nat (length (t :: t' :: ts)))
        by (cbn [length]; lia).
      reflexivity. }
  destruct (Hgen (t1 :: times) (StdDevCounter.init nm scale precision))
    as (H1 & H2 & H3 & H4 & H5);
    [cbn; lia | left; split; reflexivity | reflexivity | reflexivity
    | discriminate |].
  cbv zeta in *.
  change (count (StdDevCounter.init nm scale precision)) with 0 in H2, H5.
  rewrite Z.add_0_l in H2, H5. auto.
Qed.

(** Neither the accumulator nor stddev is negative. *)
Lemma StdDevCounter_record_never_negative (v : pyval) (t : datetime) (o : instance) :
  not_a_float v ->
  consistent o -> num_lt (stddev o) (PyInt 0) = false ->
  let r := StdDevCounter.record v t o in
  (fst r = Ok tt \/ fst r = Raise TypeError \/ fst r = Raise OverflowError) /\
  consistent (snd r) /\ num_lt (stddev (snd r)) (PyInt 0) = false.
Proof.
  intros Hv Ho Hs. cbv zeta.
  destruct v as [[z|f]| |]; [|contradiction| |].
  - pose proof (StdDevCounter_accumulated_consistent z t o Ho) as H2.
    destruct Ho as (Hc & a & m & Ha & Hm & Hm0).
    rewrite (StdDevCounter_record_int z t o a m Ha Hm) by lia.
    cbv zeta.
    assert (Hs2 : stddev (StdDevCounter_accumulated z t o) = stddev o)
      by reflexivity.
    assert (Hk : count (StdDevCounter_accumulated z t o) = count o + 1)
      by reflexivity.
    destruct (2 <? count (StdDevCounter_accumulated z t o));
      [|cbn [fst snd]; rewrite Hs2; auto].
    pose proof H2 as (Hc2 & a2 & m2 & Ha2 & Hm2 & Hm20).
    rewrite Hm2. cbn [int_of].
    destruct (math_sqrt_int_not_negative
                (m2 / count (StdDevCounter_accumulated z t o))) as [Hq|Hq];
      [apply Z.div_pos; lia | |]; rewrite Hq; cbn [fst snd].
    + split; [auto|]. split.
      * split; [exact Hc2|]. exists a2, m2. auto.
      * cbn [stddev set_stddev].
        apply float_not_negative_lt, float_sqrt_not_negative,
          float_of_Z_not_negative.
        apply Z.div_pos; lia.
    + rewrite Hs2. auto.
  - rewrite StdDevCounter_record_not_num by (intros n; discriminate).
    cbn [fst snd]. auto.
  - rewrite StdDevCounter_record_not_num by (intros n; discriminate).
    cbn [fst snd]. auto.
Qed.

(** X8: whatever is recorded on a new [StdDevCounter] among [int]s of any
    size, strings and [None], the run returns or stops on a [TypeError]
    (a sample that is not a number) or on an [OverflowError] (an [int] too
    large for [math.sqrt]); the accumulator and stddev are never negative,
    so [math.sqrt] never raises its domain error and the division by the
    count never divides by zero. *)
Theorem StdDevCounter_never_negative
    (samples : list (pyval * datetime)) (nm : string) (scale : num) (precision : Z) :
  Forall (fun s => not_a_float (fst s)) samples ->
  let r := record_all StdDevCounter.record samples
             (StdDevCounter.init nm scale precision) in
  (fst r = Ok tt \/ fst r = Raise TypeError \/ fst r = Raise OverflowError) /\
  num_lt (_mean2 (snd r)) (PyInt 0) = false /\
  num_lt (stddev (snd r)) (PyInt 0) = false /\
  0 <= count (snd r).
Proof.
  intros Hall.
  assert (Hgen : forall o,
            consistent o -> num_lt (stddev o) (PyInt 0) = false ->
            let r := record_all StdDevCounter.record samples o in
            (fst r = Ok tt \/ fst r = Raise TypeError \/ fst r = Raise OverflowError) /\
            consistent (snd r) /\ num_lt (stddev (snd r)) (PyInt 0) = false).
  { induction Hall as [|[v t] rest Hv Hrest IH]; intros o Ho Hs.
    - cbn. auto.
    - cbn [fst] in Hv.
      destruct (StdDevCounter_record_never_negative v t o Hv Ho Hs)
        as (H1 & H2 & H3).
      cbn [record_all]. unfold bind.
      destruct (StdDevCounter.record v t o) as [[[]|e] o1]; cbn [fst snd] in *.
      + apply IH; assumption.
      + destruct H1 as [H1|H1]; [discriminate|]. auto. }
  destruct (Hgen (StdDevCounter.init nm scale precision))
    as (H1 & (Hc & a & m & _ & Hm & Hm0) & H3).
  - split; [cbn; lia|]. exists 0, 0. repeat split; (reflexivity || lia).
  - reflexivity.
  - cbv zeta. split; [exact H1|]. split; [|split; [exact H3 | exact Hc]].
    rewrite Hm. cbn [num_lt]. apply Z.ltb_ge. exact Hm0.
Qed.

Lemma StdDevCounter_init_bounded (nm : string) (scale : num) (precision : Z) :
  bounded (StdDevCounter.init nm scale precision).
Proof.
  pose proof sample_limit_nonneg as HB.
  split; [cbn; lia|]. split; [|left; reflexivity].
  exists 0, 0, 0, 0. unfold small.
  cbn [count StdDevCounter.init MinMaxAvgCounter.init Counter.init].
  repeat split; try reflexivity; lia.
Qed.

(** X9: on a new [StdDevCounter] that records [int]s of moderate size
    every call returns; stddev is the initial [int] 0 as long as at most
    two samples were recorded; from the third on it is
    [sqrt(_mean2 / count)], the root of the float of the floor division of
    the accumulator by the count the counter then holds. *)
Theorem StdDevCounter_stddev_gate
    (samples : list (pyval * datetime)) (nm : string) (scale : num) (precision : Z) :
  Forall (fun s => exists z, fst s = PNum (PyInt z) /\ small z) samples ->
  let r := record_all StdDevCounter.record samples
             (StdDevCounter.init nm scale precision) in
  fst r = Ok tt /\
  count (snd r) = Z.of_nat (length samples) /\
  ((length samples <= 2)%nat -> stddev (snd r) = PyInt 0) /\
  ((2 < length samples)%nat ->
   stddev (snd r)
   = PyFloat (float_sqrt (int_of (_mean2 (snd r)) / count (snd r)))).
Proof.
  intros Hall.
  assert (Hgen : forall o,
            bounded o ->
            (count o <= 2 -> stddev o = PyInt 0) ->
            (2 < count o ->
             stddev o = PyFloat (float_sqrt (int_of (_mean2 o) / count o))) ->
            let r := record_all StdDevCounter.record samples o in
            fst r = Ok tt /\
            count (snd r) = count o + Z.of_nat (length samples) /\
            (count (snd r) <= 2 -> stddev (snd r) = PyInt 0) /\
            (2 < count (snd r) ->
             stddev (snd r)
             = PyFloat (float_sqrt (int_of (_mean2 (snd r)) / count (snd r))))).
  { induction Hall as [|[v t] rest (z & Hv & Hz) Hrest IH]; intros o Ho H1 H2.
    - cbn. split; [reflexivity|]. split; [lia | auto].
    - cbn [fst] in Hv. subst v.
      destruct (StdDevCounter_record_small z t o Ho Hz) as [Hr Hb].
      rewrite (record_all_cons _ _ _ _ _ _ Hr).
      assert (Hk : count (StdDevCounter_next z t o) = count o + 1).
      { unfold StdDevCounter_next.
        destruct (2 <? count (StdDevCounter_accumulated z t o)); reflexivity. }
      destruct (IH (StdDevCounter_next z t o) Hb) as (I1 & I2 & I3 & I4).
      + rewrite Hk. intros Hle. unfold StdDevCounter_next.
        change (count (StdDevCounter_accumulated z t o)) with (count o + 1).
        destruct (Z.ltb_spec 2 (count o + 1)); [lia|].
        change (stddev (StdDevCounter_accumulated z t o)) with (stddev o).
        apply H1. lia.
      + rewrite Hk. intros Hlt. unfold StdDevCounter_next.
        change (count (StdDevCounter_accumulated z t o)) with (count o + 1).
        destruct (Z.ltb_spec 2 (count o + 1)); [reflexivity | lia].
      + cbv zeta in *. split; [exact I1|].
        split; [rewrite I2, Hk; cbn [length]; lia | auto]. }
  destruct (Hgen (StdDevCounter.init nm scale precision))
    as (H1 & H2 & H3 & H4).
  - apply StdDevCounter_init_bounded.
  - reflexivity.
  - cbn. lia.
  - cbv zeta in *.
    change (count (StdDevCounter.init nm scale precision)) with 0 in H2.
    split; [exact H1|]. split; [lia|].
    split; [intros Hl; apply H3; lia | intros Hl; apply H4; lia].
Qed.

(** ** Elapsed times *)

(** X15: [record_elapsed] hands to the counter the elapsed time modulo one
    second, a number from 0 to 999999 also when [start] is later than the
    clock reading, so two elapsed times that differ by whole seconds are
    recorded alike. *)
Theorem record_elapsed_modulo_one_second (nm : string) (start t_now : datetime)
    (k : Z) (t1 t2 : datetime) (s : ElapsedTimeStats.t) :
  ElapsedTimeStats.record_elapsed nm start t_now t1 t2 s
  = ElapsedTimeStats.record_delta nm
      (ElapsedTimeStats.Value (PyInt ((t_now - start) mod 1000000))) t1 t2 s /\
  0 <= (t_now - start) mod 1000000 < 1000000 /\
  ElapsedTimeStats.record_elapsed nm start (t_now + k * 1000000) t1 t2 s
  = ElapsedTimeStats.record_elapsed nm start t_now t1 t2 s.
Proof.
  split; [reflexivity|]. split; [apply Z.mod_pos_bound; lia|].
  unfold ElapsedTimeStats.record_elapsed.
  rewrite !record_delta_timedelta. do 2 f_equal.
  unfold datetime_sub, timedelta_of_us. cbn [microseconds].
  replace (t_now + k * 1000000 - start) with (t_now - start + k * 1000000) by lia.
  rewrite Z_mod_plus_full. reflexivity.
Qed.

(** ** A scale of zero *)

Lemma num_div_zero_scale (x : Z) (scale : num) :
  Z.abs x < float_limit -> zero_scale scale = true ->
  num_div (PyInt x) scale = Raise ZeroDivisionError.
Proof.
  intros Hx Hs. destruct scale as [y|f]; cbn [zero_scale] in Hs.
  - cbn [num_div]. rewrite Hs. reflexivity.
  - unfold num_div, as_float. rewrite float_of_int_small by exact Hx.
    rewrite Hs. reflexivity.
Qed.

(** X16: a [MinMaxAvgCounter] built with a scale of zero, the [int] 0 or a
    float zero, records [int]s as any other, but once it has recorded one
    its [__repr__] raises [ZeroDivisionError] (the samples being within
    the range of the floats, so that they can be converted). *)
Theorem MinMaxAvgCounter_zero_scale_repr `{Formatting}
    (samples : list (pyval * datetime)) (nm : string) (scale : num) (precision : Z) :
  zero_scale scale = true ->
  samples <> [] ->
  Forall (fun s => exists z, fst s = PNum (PyInt z) /\ Z.abs z < float_limit)
    samples ->
  let r := record_all MinMaxAvgCounter.record samples
             (MinMaxAvgCounter.init nm scale precision) in
  fst r = Ok tt /\ MinMaxAvgCounter.repr (snd r) = Raise ZeroDivisionError.
Proof.
  intros Hscale Hne Hall.
  destruct (record_all_ints_invariant (fun z => Z.abs z < float_limit)
              (fun o xs => (xs <> [] -> is_Some (first o) /\ is_Some (last o)) /\
                           (exists mn, min o = PyInt mn /\ Z.abs mn < float_limit) /\
                           _scale o = scale)
              samples) with (o := MinMaxAvgCounter.init nm scale precision)
                            (xs := @nil Z) as (H1 & _ & _ & H3).
  - intros o xs z t a _ _ Hz (_ & (mn & Hmn & Hb) & Hs).
    split; [intros _; split|split].
    + cbn [first MinMaxAvgCounter_next MinMaxAvgCounter_counted set_avg].
      destruct (first o); eauto.
    + cbn [last MinMaxAvgCounter_next MinMaxAvgCounter_counted set_avg]. eauto.
    + rewrite (MinMaxAvgCounter_next_min z t o mn Hmn).
      eexists. split; [reflexivity|].
      destruct (0 =? mn); [exact Hz|]. lia.
    + exact Hs.
  - exact Hall.
  - reflexivity.
  - exists 0. reflexivity.
  - split; [intros []; reflexivity|]. split; [|reflexivity].
    exists 0. split; [reflexivity|]. pose proof float_limit_pos. lia.
  - cbv zeta. split; [exact H1|].
    cbn [app] in H3. destruct H3 as (Hfl & (mn & Hmn & Hb) & Hs).
    destruct Hfl as [[f Hf] [l Hl]].
    { destruct samples; [contradiction | discriminate]. }
    unfold MinMaxAvgCounter.repr, Counter.repr.
    rewrite Hf, Hl, Hmn, Hs. cbn [py_div].
    rewrite num_div_zero_scale by assumption. reflexivity.
Qed.

Lemma MinMaxAvgCounter_zero_scale_witness :
  MinMaxAvgCounter.repr
    (snd (record_all MinMaxAvgCounter.record (at_time 7 (ints [5]))
            (MinMaxAvgCounter.init "" (PyFloat 0) 3)))
  = Raise ZeroDivisionError.
Proof.
  refine (proj2 (MinMaxAvgCounter_zero_scale_repr (at_time 7 (ints [5]))
                   "" (PyFloat 0) 3 _ _ _)).
  - reflexivity.
  - discriminate.
  - repeat constructor. exists 5. split; [reflexivity|].
    vm_compute. reflexivity.
Defined.

(** With a float zero for scale and a sample beyond the range of the
    floats, [__repr__] raises [OverflowError] instead: the sample is
    converted before the divisor is looked at. *)
Lemma MinMaxAvgCounter_zero_scale_overflow :
  let r := record_all MinMaxAvgCounter.record (at_time 7 (ints [10 ^ 400]))
             (MinMaxAvgCounter.init "" (PyFloat 0) 3) in
  fst r = Ok tt /\ MinMaxAvgCounter.repr (snd r) = Raise OverflowError.
Proof. split; vm_compute; reflexivity. Qed.

(** ** The connection handler *)

Lemma Handler_collect_all (chunks : list string) (h : Handler.t) :
  fold_left (fun h data => Handler.collect_incoming_data data h) chunks h
  = {| Handler.ibuffer := (Handler.ibuffer h ++ chunks)%list;
       Handler.terminator := Handler.terminator h;
       Handler.requests := Handler.requests h |}.
Proof.
  revert h. induction chunks as [|c chunks IH]; intros h; cbn [fold_left].
  - rewrite app_nil_r. destruct h; reflexivity.
  - rewrite IH. cbn. rewrite <- app_assoc. reflexivity.
Qed.

(** X17: for every command the handler pushes one reply, made of the
    command's chunks put together whatever way the command was cut into
    chunks, and then asks for the connection to be closed; the buffer is
    empty after each command, so a reply never holds data of an earlier
    command. *)
Theorem Handler_replies (cmds : list (list string)) (h : Handler.t) :
  Handler.ibuffer h = [] ->
  Handler.ibuffer (Handler.commands cmds h) = [] /\
  Handler.requests (Handler.commands cmds h)
  = (Handler.requests h ++
     flat_map (fun chunks =>
                 [ Handler.Push ("Thanks for saying '" ++ String.concat "" chunks
                                 ++ "'" ++ Handler.crlf);
                   Handler.CloseWhenDone ]) cmds)%list.
Proof.
  revert h. induction cmds as [|chunks cmds IH]; intros h Hb.
  - cbn. rewrite app_nil_r. auto.
  - unfold Handler.commands in *. cbn [fold_left flat_map].
    destruct (IH (Handler.command chunks h)) as [H1 H2]; [reflexivity|].
    split; [exact H1|]. rewrite H2.
    unfold Handler.command, Handler.found_terminator.
    rewrite Handler_collect_all, Hb. cbn [Handler.ibuffer Handler.requests app].
    rewrite <- app_assoc. reflexivity.
Qed.

Lemma Handler_replies_witness :
  Handler.requests (Handler.commands [["he"; "llo"]; ["bye"]] Handler.init)
  = [ Handler.Push ("Thanks for saying 'hello'" ++ Handler.crlf);
      Handler.CloseWhenDone;
      Handler.Push ("Thanks for saying 'bye'" ++ Handler.crlf);
      Handler.CloseWhenDone ].
Proof.
  exact (proj2 (Handler_replies [["he"; "llo"]; ["bye"]] Handler.init eq_refl)).
Defined.

(** ** Float samples *)

(** On the float samples 1.0 and 2.0 avg is 1.5; on 1.0, 2.0 and 3.0 the
    accumulator is 2.0 and stddev is the root of 2.0 / 3. *)
Lemma float_samples_example :
  let o := snd (record_all MinMaxAvgCounter.record
                  (at_time 7 (floats [1; 2])) new_MinMaxAvgCounter) in
  let o' := snd (record_all StdDevCounter.record
                   (at_time 7 (floats [1; 2; 3])) new_StdDevCounter) in
  avg o = PyFloat (float_div 3 2) /\
  avg o' = PyFloat 2 /\ _mean2 o' = PyFloat 2 /\
  stddev o' = PyFloat (float_sqrt (float_div 2 3)).
Proof. repeat split; vm_compute; reflexivity. Qed.

(** The zero sample is lost from min with float samples as well: after
    0.0 and 5.0 min is 5.0 and avg is 2.5. *)
Lemma avg_below_min_after_zero_float_sample :
  let o := snd (record_all MinMaxAvgCounter.record
                  (at_time 7 (floats [0; 5])) new_MinMaxAvgCounter) in
  count o = 2 /\ min o = PyFloat 5 /\ avg o = PyFloat (float_div 5 2) /\
  max o = PyFloat 5 /\ py_lt (avg o) (min o) = true.
Proof. repeat split; vm_compute; reflexivity. Qed.

(** A [float] sample after an [int] too large for a float stops
    [StdDevCounter.record] at its first statement, and an [int] too large
    after a float sample as well: the counter is as it was. *)
Lemma mixed_samples_overflow :
  let o := snd (StdDevCounter.record (PyFloat (float_div 3 2)) 7 new_StdDevCounter) in
  StdDevCounter.record (PyInt (10 ^ 400)) 8 o = (Raise OverflowError, o).
Proof. vm_compute. reflexivity. Qed.

(** ** The statements on concrete runs *)

Lemma negative_run_ints : Forall (fun s => is_int (fst s)) negative_run.
Proof. repeat constructor; eexists; reflexivity. Qed.

Lemma max_is_largest_of_zero_and_samples_witness :
  max (snd (record_all MinMaxAvgCounter.record negative_run new_MinMaxAvgCounter))
  = PyInt 0.
Proof.
  exact (proj2 (MinMaxAvgCounter_max_is_largest_of_zero_and_samples
                  negative_run "" (PyInt 1) 3 negative_run_ints)).
Defined.

Lemma min_of_nonzero_samples_witness :
  min (snd (record_all MinMaxAvgCounter.record negative_run new_MinMaxAvgCounter))
  = PyInt (-5).
Proof.
  refine (proj2 (MinMaxAvgCounter_min_of_nonzero_samples
                   negative_run "" (PyInt 1) 3 _ _)).
  - discriminate.
  - repeat constructor; eexists; (split; [reflexivity | lia]).
Defined.

Lemma avg_between_samples_witness :
  exists a,
    avg (snd (record_all MinMaxAvgCounter.record negative_run
                new_MinMaxAvgCounter)) = PyInt a /\
    -5 <= a <= -3.
Proof.
  refine (proj2 (MinMaxAvgCounter_avg_between_samples
                   negative_run "" (PyInt 1) 3 _ negative_run_ints)).
  discriminate.
Defined.

Lemma never_negative_witness :
  let r := record_all StdDevCounter.record mixed_run new_StdDevCounter in
  (fst r = Ok tt \/ fst r = Raise TypeError \/ fst r = Raise OverflowError) /\
  num_lt (_mean2 (snd r)) (PyInt 0) = false /\
  num_lt (stddev (snd r)) (PyInt 0) = false /\
  0 <= count (snd r).
Proof.
  refine (StdDevCounter_never_negative mixed_run "" (PyInt 1) 3 _).
  repeat constructor.
Defined.

Lemma stddev_gate_witness :
  stddev (snd (record_all StdDevCounter.record four_run new_StdDevCounter))
  = PyFloat (float_sqrt
      (int_of (_mean2 (snd (record_all StdDevCounter.record four_run new_StdDevCounter)))
       / count (snd (record_all StdDevCounter.record four_run new_StdDevCounter)))).
Proof.
  refine (proj2 (proj2 (proj2 (StdDevCounter_stddev_gate
                                 four_run "" (PyInt 1) 3 _))) _).
  - repeat constructor; eexists; (split; [reflexivity|]);
      apply Z.leb_le; reflexivity.
  - cbn. lia.
Defined.

